(** * PyCliff: command bindings and console loop

    A shallow embedding of [pycliff/bindings.py] and [pycliff/console.py]
    (with the handlers of [examples/hello.py] as a concrete instance),
    followed by the properties of the dispatch mechanism and of the
    read-execute loops.

    Python objects are modelled by records, the mutable state of the program
    by explicit state passing in a small state-and-exception monad, and
    Python exceptions by a result type. *)

From Stdlib Require Import String Ascii ZArith Lia.
From Stdlib Require Import OrdersEx.
From stdpp Require Import base option list gmap strings sorting.

Local Open Scope string_scope.

(** ** Python values and exceptions *)

(** Function objects are references; what calling one does is given by a
    handler table (see [handlers] below). *)
Definition hid := nat.

(** The Python values that occur as handlers, fallbacks and attached
    objects.  [PyName] is an instance of the class [Name] of
    [examples/hello.py], with its field [value]. *)
Inductive pyval : Type :=
| PyNone
| PyStr (s : string)
| PyInt (n : Z)
| PyFun (h : hid)
| PyName (value : string).

(** The builtin [callable]. *)
Definition callable (v : pyval) : bool :=
  match v with
  | PyFun _ => true
  | _ => false
  end.

(** Exceptions, by the class that decides which [except] clause takes them.
    [OSError] stands for the class and its subclasses ([IOError] is the same
    class in Python 3); [Exception cls msg] is an exception of any class
    [cls] that is none of the others. *)
Inductive exn : Type :=
| CommandBindingException (msg : string)
| KeyboardInterrupt
| OSError (msg : string)
| IndexError
| EOFError
| ValueError (msg : string)
| Exception (cls msg : string).

(** The result of a call: a value, or a raised exception. *)
Inductive Res (A : Type) : Type :=
| Ret (a : A)
| Raise (e : exn).
Arguments Ret {A} a.
Arguments Raise {A} e.

(** ** Program state *)

(** [class Bindings]: the fields set by [__init__]. *)
Record BindingsState : Type := mkBindings {
  _commands : gmap string pyval;
  _default : pyval;
  _args : list string
}.

(** [class Console]: the fields set by [__init__]. *)
Record ConsoleState : Type := mkConsole {
  _running : bool;
  _bindings : BindingsState;
  _objects : gmap string pyval;
  _prompt : string;
  _greeting : string
}.

(** What the terminal delivers to one call of [input]: a line (without its
    newline), or CTRL+C. *)
Inductive stdin_event : Type :=
| Line (s : string)
| Interrupt.

(** Everything a handler can see and change: the console object [con], the
    characters written to standard output, the pending terminal input and
    the text files. *)
Record World : Type := mkWorld {
  con : ConsoleState;
  stdout : string;
  stdin : list stdin_event;
  files : gmap string string
}.

(** The state threaded through the library code: the world, and the log of
    the calls [handler( *self._args)] made by [Bindings.execute], each with
    the handler called and the arguments passed.  The log is kept apart from
    the world, so no handler can alter it. *)
Record Machine : Type := mkMachine {
  world : World;
  invoked : list (hid * list string)
}.

(** The meaning of the function objects: calling [PyFun h] with positional
    string arguments transforms the world and returns or raises. *)
Definition handlers : Type := hid -> list string -> World -> Res pyval * World.

(** ** The monad *)

Definition M (A : Type) : Type := Machine -> Res A * Machine.

Definition ret {A} (a : A) : M A := fun m => (Ret a, m).

Definition raise {A} (e : exn) : M A := fun m => (Raise e, m).

Definition bind {A B} (c : M A) (k : A -> M B) : M B :=
  fun m =>
    match c m with
    | (Ret a, m') => k a m'
    | (Raise e, m') => (Raise e, m')
    end.

Notation "'let*' x := c 'in' k" := (bind c (fun x => k))
  (at level 10, x name, c at level 100, k at level 200).
Notation "c >> k" := (bind c (fun _ => k))
  (at level 62, right associativity).

(** [try: body except ...: ...]: [clause e] is the body of the [except]
    clause that takes [e], if there is one; any other exception goes on. *)
Definition try_except {A} (body : M A) (clause : exn -> option (M A)) : M A :=
  fun m =>
    match body m with
    | (Ret a, m') => (Ret a, m')
    | (Raise e, m') =>
        match clause e with
        | Some k => k m'
        | None => (Raise e, m')
        end
    end.

(** [for x in xs: body x]. *)
Fixpoint for_each {A} (body : A -> M unit) (xs : list A) : M unit :=
  match xs with
  | [] => ret tt
  | x :: xs' => body x >> for_each body xs'
  end.

(** State updates. *)
Definition set_con (c : ConsoleState) (w : World) : World :=
  mkWorld c (stdout w) (stdin w) (files w).

Definition set_bindings (b : BindingsState) (c : ConsoleState) : ConsoleState :=
  mkConsole (_running c) b (_objects c) (_prompt c) (_greeting c).

Definition set_running (r : bool) (c : ConsoleState) : ConsoleState :=
  mkConsole r (_bindings c) (_objects c) (_prompt c) (_greeting c).

Definition set_world (w : World) (m : Machine) : Machine :=
  mkMachine w (invoked m).

Definition modify_con (f : ConsoleState -> ConsoleState) : M unit :=
  fun m => (Ret tt, set_world (set_con (f (con (world m))) (world m)) m).

Definition modify_bindings (f : BindingsState -> BindingsState) : M unit :=
  modify_con (fun c => set_bindings (f (_bindings c)) c).

Definition the_bindings (m : Machine) : BindingsState :=
  _bindings (con (world m)).

(** An operation on the world alone, run inside the library code. *)
Definition liftW {A} (f : World -> Res A * World) : M A :=
  fun m => let (r, w) := f (world m) in (r, set_world w m).

(** ** Builtins *)

Definition nl : string := String (ascii_of_nat 10) EmptyString.

(** [print(message)] for a string. *)
Definition print (message : string) (w : World) : World :=
  mkWorld (con w) (stdout w ++ message ++ nl) (stdin w) (files w).

(** [input(prompt)]: writes the prompt, then takes what the terminal
    delivers; at the end of the input it raises [EOFError]. *)
Definition input (prompt : string) (w : World) : Res string * World :=
  let out := stdout w ++ prompt in
  match stdin w with
  | [] => (Raise EOFError, mkWorld (con w) out [] (files w))
  | Line s :: rest => (Ret s, mkWorld (con w) out rest (files w))
  | Interrupt :: rest => (Raise KeyboardInterrupt, mkWorld (con w) out rest (files w))
  end.

(** [open(filename, 'r')] followed by [read()]: the text of the file, or
    [OSError] when there is no such file. *)
Definition open_read (filename : string) (w : World) : Res string * World :=
  match files w !! filename with
  | Some text => (Ret text, w)
  | None => (Raise (OSError ("No such file or directory: " ++ filename)), w)
  end.

(** The lines a text file yields when iterated over, each with its newline
    (the last one may lack it). *)
Fixpoint readlines_from (cur text : string) : list string :=
  match text with
  | EmptyString => match cur with EmptyString => [] | _ => [cur] end
  | String c text' =>
      if Ascii.eqb c (ascii_of_nat 10) then (cur ++ nl) :: readlines_from "" text'
      else readlines_from (cur ++ String c EmptyString) text'
  end.

Definition readlines (text : string) : list string := readlines_from "" text.

(** [seq[i]] for an integer [i]: a negative index counts from the end, and
    an index outside [-len, len) raises [IndexError]. *)
Definition getitem {A} (l : list A) (i : Z) : Res A :=
  let n := Z.of_nat (length l) in
  let j := if (i <? 0)%Z then (i + n)%Z else i in
  if ((j <? 0) || (n <=? j))%Z then Raise IndexError
  else match l !! Z.to_nat j with
       | Some x => Ret x
       | None => Raise IndexError
       end.

(** [sorted] on strings: ascending by code point, which on UTF-8 bytes is
    the bytewise lexicographic order of [String.compare]. *)
Definition str_le (a b : string) : Prop := String.leb a b = true.

Definition str_lt (a b : string) : Prop := String.compare a b = Lt.

#[local] Instance str_le_dec : RelDecision str_le.
Proof. intros a b. unfold str_le. apply _. Defined.

Definition sorted (l : list string) : list string := merge_sort str_le l.

(** ** bindings.py *)

Module Bindings.

(** [__init__] *)
Definition init : BindingsState := mkBindings ∅ PyNone [].

(** [__contains__] *)
Definition contains (key : string) (self : BindingsState) : bool :=
  bool_decide (is_Some (_commands self !! key)).

(** property [argc] *)
Definition argc (self : BindingsState) : Z := Z.of_nat (length (_args self)).

Definition getArg (index : Z) (default : pyval) (self : BindingsState) : Res pyval :=
  if (index >=? argc self)%Z then Ret default
  else match getitem (_args self) index with
       | Ret s => Ret (PyStr s)
       | Raise e => Raise e
       end.

Definition add (command : string) (handler : pyval) (self : BindingsState)
  : pyval * BindingsState :=
  (handler, mkBindings (<[command := handler]> (_commands self)) (_default self) (_args self)).

Definition setDefault (handler : pyval) (self : BindingsState)
  : pyval * BindingsState :=
  (handler, mkBindings (_commands self) handler (_args self)).

(** [register(command)] returns the decorator, which is [add command]. *)
Definition register (command : string) : pyval -> BindingsState -> pyval * BindingsState :=
  fun handler => add command handler.

Definition asList (self : BindingsState) : list string :=
  sorted (map_to_list (_commands self)).*1.

(** [self._commands.get(command, self._default)] *)
Definition lookup (command : string) (self : BindingsState) : pyval :=
  default (_default self) (_commands self !! command).

Definition set_args (args : list string) (self : BindingsState) : BindingsState :=
  mkBindings (_commands self) (_default self) args.

Section Execute.
Variable call : handlers.

(** [handler( *self._args)], entered in the log. *)
Definition invoke (h : hid) : M pyval :=
  fun m =>
    let args := _args (the_bindings m) in
    let (r, w') := call h args (world m) in
    (r, mkMachine w' (invoked m ++ [(h, args)])).

Definition execute (commands : list string) : M pyval :=
  match commands with
  | [] => ret PyNone
  | command :: rest =>
      modify_bindings (set_args rest) >>
      fun m =>
        let handler := lookup command (the_bindings m) in
        match handler with
        | PyFun h => invoke h m
        | _ => raise (CommandBindingException (command ++ ": command not recognized")) m
        end
  end.
End Execute.

End Bindings.

(** ** console.py *)

Module Console.

(** [setPrompt]: stores the prompt between a newline and a space. *)
Definition setPrompt (prompt : string) (self : ConsoleState) : ConsoleState :=
  mkConsole (_running self) (_bindings self) (_objects self)
            (nl ++ prompt ++ " ") (_greeting self).

Definition setGreeting (greeting : string) (self : ConsoleState) : ConsoleState :=
  mkConsole (_running self) (_bindings self) (_objects self)
            (_prompt self) greeting.

(** [__init__]; the defaults of the source are [prompt = ">"] and
    [greeting = ""]. *)
Definition init (prompt greeting : string) : ConsoleState :=
  setGreeting greeting
    (setPrompt prompt (mkConsole false Bindings.init ∅ "" "")).

(** property [argc] *)
Definition argc (self : ConsoleState) : Z := Bindings.argc (_bindings self).

Definition getArg (index : Z) (default : pyval) (self : ConsoleState) : Res pyval :=
  Bindings.getArg index default (_bindings self).

Definition useGreeting (filename : string) : M unit :=
  let* greeting := liftW (open_read filename) in
  modify_con (setGreeting greeting).

Definition commandList (self : ConsoleState) : list string :=
  Bindings.asList (_bindings self).

Definition display_world (messages : list string) (w : World) : World :=
  foldl (fun w message => print message w) w messages.

Definition display (messages : list string) : M unit :=
  fun m => (Ret tt, set_world (display_world messages (world m)) m).

(** [register(command)] returns the decorator. *)
Definition register (command : string) (handler : pyval) (self : ConsoleState)
  : pyval * ConsoleState :=
  let (h, b) := Bindings.add command handler (_bindings self) in
  (h, set_bindings b self).

Definition default (handler : pyval) (self : ConsoleState) : pyval * ConsoleState :=
  let (h, b) := Bindings.setDefault handler (_bindings self) in
  (h, set_bindings b self).

Definition stop (self : ConsoleState) : ConsoleState := set_running false self.

Definition attach (key : string) (obj : pyval) (self : ConsoleState) : ConsoleState :=
  mkConsole (_running self) (_bindings self) (<[key := obj]> (_objects self))
            (_prompt self) (_greeting self).

Definition getObject (key : string) (default : pyval) (self : ConsoleState) : pyval :=
  stdpp.option.default default (_objects self !! key).

(** [if self._greeting: self.display(self._greeting)] *)
Definition show_greeting : M unit :=
  fun m =>
    match _greeting (con (world m)) with
    | EmptyString => ret tt m
    | greeting => display [greeting] m
    end.

(** The [except] clauses of [execute]. *)
Definition execute_except (e : exn) : option (M unit) :=
  match e with
  | OSError _ => Some (display ["An error occurred while opening script file"])
  | KeyboardInterrupt => Some (display ["Terminating..."])
  | _ => None
  end.

Section Loop.
Variable call : handlers.
(** [shlex.split] of the standard library: the tokens of a line, or the
    [ValueError] it raises on a line it cannot split. *)
Variable shlex_split : string -> Res (list string).

Definition _process_command (command : string) : M unit :=
  let* command := (fun m => (shlex_split command, m)) in
  try_except
    (Bindings.execute call command >> ret tt)
    (fun e =>
       match e with
       | CommandBindingException msg => Some (display [msg])
       | _ => None
       end).

(** One pass through the body of the [while] loop of [run]. *)
Definition run_body : M unit :=
  let* response := (fun m => liftW (input (_prompt (con (world m)))) m) in
  _process_command response.

(** [while (self._running): ...]; the loop need not end, so it runs on
    fuel, and [None] means that the fuel ran out. *)
Fixpoint run_loop (fuel : nat) (m : Machine) : option (Res unit * Machine) :=
  match fuel with
  | O => None
  | S fuel' =>
      if _running (con (world m)) then
        match run_body m with
        | (Ret _, m') => run_loop fuel' m'
        | (Raise e, m') => Some (Raise e, m')
        end
      else Some (Ret tt, m)
  end.

Definition run (fuel : nat) (m : Machine) : option (Res unit * Machine) :=
  match (show_greeting >> modify_con (set_running true)) m with
  | (Raise e, m1) => Some (Raise e, m1)
  | (Ret _, m1) =>
      match run_loop fuel m1 with
      | Some (Raise KeyboardInterrupt, m2) => Some (display [""; "Exiting..."] m2)
      | r => r
      end
  end.

(** [execute(filename)].  The file is read when it is opened; its lines
    are then processed one by one. *)
Definition execute (filename : string) : M unit :=
  show_greeting >>
  try_except
    (let* script := liftW (open_read filename) in
     for_each _process_command (readlines script))
    execute_except.
End Loop.

End Console.

(** ** examples/hello.py *)

Module Hello.

(** The four functions of the example, as function objects. *)
Definition stop : hid := 0.
Definition listCommands : hid := 1.
Definition askName : hid := 2.
Definition sayHello : hid := 3.

(** [name = con.getObject('name')] and the read of [name.value]; an
    object without that field raises [AttributeError].  The registry
    holds the only reference to the object, so a write to [name.value]
    is a write to the registry entry. *)
Definition with_name (w : World) (k : string -> Res pyval * World) : Res pyval * World :=
  match Console.getObject "name" PyNone (con w) with
  | PyName value => k value
  | _ => (Raise (Exception "AttributeError" "value"), w)
  end.

Definition truthy (s : string) : bool :=
  match s with EmptyString => false | _ => true end.

Definition call : handlers := fun h _ w =>
  match h with
  | 0 =>
      with_name w (fun value =>
        let w1 := if truthy value
                  then Console.display_world ["Goodbye, " ++ value ++ "!"] w
                  else Console.display_world ["Goodbye!"] w in
        (Ret PyNone, set_con (Console.stop (con w1)) w1))
  | 1 =>
      (Ret PyNone,
       Console.display_world
         ["Available commands:";
          "   ask     -- The console asks for your name";
          "   greet   -- The console greets you";
          "   ?, help -- Display the help message";
          "   q, quit -- Exit the console"] w)
  | 2 =>
      with_name w (fun _ =>
        match input ("What is your name?" ++ nl) w with
        | (Ret value, w1) =>
            (Ret PyNone, set_con (Console.attach "name" (PyName value) (con w1)) w1)
        | (Raise e, w1) => (Raise e, w1)
        end)
  | 3 =>
      with_name w (fun value =>
        if truthy value
        then (Ret PyNone, Console.display_world ["Hello, " ++ value ++ "!"] w)
        else (Ret PyNone, Console.display_world ["Hello there!"] w))
  | _ => (Raise (Exception "TypeError" "object is not callable"), w)
  end.

(** The module-level statements: the console, its greeting file, the
    attached object and the registrations (a stack of decorators applies
    the lowest one first). *)
Definition do_register (command : string) (h : hid) : M unit :=
  modify_con (fun c => snd (Console.register command (PyFun h) c)).

Definition setup : M unit :=
  Console.useGreeting "./greeting.txt" >>
  modify_con (Console.attach "name" (PyName "")) >>
  do_register "quit" stop >> do_register "q" stop >>
  do_register "?" listCommands >> do_register "help" listCommands >>
  do_register "ask" askName >>
  do_register "greet" sayHello.

(** The machine before the setup, with a greeting file, a script file
    and pending terminal input. *)
Definition boot (script : string) (keys : list stdin_event) : Machine :=
  mkMachine
    (mkWorld (Console.init ">" "") "" keys
       (<["./greeting.txt" := "Welcome" ++ nl]> (<["script.txt" := script]> ∅)))
    [].

Definition start (script : string) (keys : list stdin_event) : Machine :=
  snd (setup (boot script keys)).

(** Word splitting on blanks; this is what [shlex.split] does on a line
    without quotes and backslashes. *)
Definition is_blank (c : ascii) : bool :=
  (Ascii.eqb c " " || Ascii.eqb c (ascii_of_nat 10)
   || Ascii.eqb c (ascii_of_nat 9) || Ascii.eqb c (ascii_of_nat 13))%bool.

Fixpoint words_from (cur line : string) : list string :=
  match line with
  | EmptyString => match cur with EmptyString => [] | _ => [cur] end
  | String c line' =>
      if is_blank c
      then match cur with
           | EmptyString => words_from "" line'
           | _ => cur :: words_from "" line'
           end
      else words_from (cur ++ String c EmptyString) line'
  end.

Definition split (line : string) : Res (list string) := Ret (words_from "" line).

(** A function object that only raises, next to those of the example,
    and the example with that object bound to ["boom"]. *)
Definition boom : hid := 4.

Definition call_raising (e : exn) : handlers := fun h args w =>
  match h with
  | 4 => (Raise e, w)
  | _ => call h args w
  end.

Definition start_boom (script : string) (keys : list stdin_event) : Machine :=
  snd ((setup >> do_register "boom" boom) (boot script keys)).

(** The example with [listCommands] as the default handler. *)
Definition start_default (script : string) (keys : list stdin_event) : Machine :=
  snd ((setup >> modify_con (fun c => snd (Console.default (PyFun listCommands) c)))
         (boot script keys)).

End Hello.

(** * Vocabulary of the statements *)

Local Open Scope list_scope.

(** The machine right after [self._args = commands[1:]]. *)
Definition with_args (args : list string) (m : Machine) : Machine :=
  snd (modify_bindings (Bindings.set_args args) m).

(** The machine whose bindings got one more registration. *)
Definition after_add (c : string) (v : pyval) (m : Machine) : Machine :=
  snd (modify_bindings (fun b => snd (Bindings.add c v b)) m).

(** One registration call on a [Bindings] object. *)
Inductive registration : Type :=
| Add (command : string) (handler : pyval)
| SetDefault (handler : pyval).

Definition register_one (b : BindingsState) (r : registration) : BindingsState :=
  match r with
  | Add command handler => snd (Bindings.add command handler b)
  | SetDefault handler => snd (Bindings.setDefault handler b)
  end.

(** A fresh [Bindings] object after a sequence of registrations. *)
Definition registered (rs : list registration) : BindingsState :=
  foldl register_one Bindings.init rs.

(** Exceptions taken by an [except] clause of the console. *)
Definition is_CommandBindingException (e : exn) : bool :=
  match e with CommandBindingException _ => true | _ => false end.

Definition is_KeyboardInterrupt (e : exn) : bool :=
  match e with KeyboardInterrupt => true | _ => false end.

Definition is_OSError (e : exn) : bool :=
  match e with OSError _ => true | _ => false end.

(** The machine at the [while] of [run]: greeting shown, flag set. *)
Definition run_enter (m : Machine) : Machine :=
  snd ((Console.show_greeting >> modify_con (set_running true)) m).

(** The machine at the [try] of [execute]: greeting shown. *)
Definition greeted (m : Machine) : Machine := snd (Console.show_greeting m).

(** The machine after [input] wrote the prompt and took a line, leaving
    [rest] pending. *)
Definition prompted (m : Machine) (rest : list stdin_event) : Machine :=
  set_world
    (mkWorld (con (world m))
             (stdout (world m) ++ _prompt (con (world m)))%string
             rest (files (world m)))
    m.

(** [passes n m m']: from [m] at the top of the [while] loop of [run],
    [n] passes through its body, none of which raised, lead to [m'] at
    the top of the loop. *)
Inductive passes (call : handlers) (shlex_split : string -> Res (list string))
  : nat -> Machine -> Machine -> Prop :=
| passes_O (m : Machine) : passes call shlex_split 0 m m
| passes_S (n : nat) (m m1 m' : Machine) :
    _running (con (world m)) = true ->
    Console.run_body call shlex_split m = (Ret tt, m1) ->
    passes call shlex_split n m1 m' ->
    passes call shlex_split (S n) m m'.

(** The machine whose bindings got a new default handler. *)
Definition after_setDefault (v : pyval) (m : Machine) : Machine :=
  snd (modify_bindings (fun b => snd (Bindings.setDefault v b)) m).

(** The text that printing the messages one after the other writes. *)
Definition printed (messages : list string) : string :=
  foldr (fun message text => (message ++ nl ++ text)%string) EmptyString messages.

(** A splitter for lines with at most one double quote and no backslash:
    [shlex.split] rejects a line with a single double quote, and splits a
    line without any at its blanks. *)
Fixpoint count_quotes (line : string) : nat :=
  match line with
  | EmptyString => 0
  | String c line' =>
      if Ascii.eqb c (ascii_of_nat 34) then S (count_quotes line')
      else count_quotes line'
  end.

Definition split_quoted (line : string) : Res (list string) :=
  match count_quotes line with
  | 1 => Raise (ValueError "No closing quotation")
  | _ => Hello.split line
  end.

(** * Properties *)

Ltac unfold_execute :=
  unfold Bindings.execute, Bindings.invoke, Bindings.lookup, bind, raise, ret,
    with_args, modify_bindings, modify_con, the_bindings in *;
  simpl in *.

Lemma with_args_args (args : list string) (m : Machine) :
  _args (the_bindings (with_args args m)) = args.
Proof. reflexivity. Qed.

Lemma with_args_invoked (args : list string) (m : Machine) :
  invoked (with_args args m) = invoked m.
Proof. reflexivity. Qed.

Lemma with_args_lookup (c : string) (args : list string) (m : Machine) :
  Bindings.lookup c (the_bindings (with_args args m)) = Bindings.lookup c (the_bindings m).
Proof. reflexivity. Qed.

(** ** Dispatch *)

Section Dispatch.
Variable call : handlers.

(** The two outcomes of a call of [execute] with a command. *)
Lemma execute_callable (c : string) (rest : list string) (m : Machine) (h : hid) :
  Bindings.lookup c (the_bindings m) = PyFun h ->
  Bindings.execute call (c :: rest) m = Bindings.invoke call h (with_args rest m).
Proof. intros Hl. unfold_execute. now rewrite Hl. Qed.

Lemma execute_uncallable (c : string) (rest : list string) (m : Machine) :
  callable (Bindings.lookup c (the_bindings m)) = false ->
  Bindings.execute call (c :: rest) m
  = (Raise (CommandBindingException (c ++ ": command not recognized")%string),
     with_args rest m).
Proof.
  intros Hl. unfold_execute.
  destruct (default _ _); simpl in Hl; try discriminate; reflexivity.
Qed.

Lemma invoke_eq (h : hid) (m : Machine) :
  Bindings.invoke call h m
  = (fst (call h (_args (the_bindings m)) (world m)),
     mkMachine (snd (call h (_args (the_bindings m)) (world m)))
               (invoked m ++ [(h, _args (the_bindings m))])).
Proof. unfold Bindings.invoke. now destruct (call _ _ _). Qed.

(** C1: a command that is not a key of the registered commands, with no
    default handler set, makes [execute] raise [CommandBindingException]
    with the message [x ++ ": command not recognized"], and no handler is
    called: the log of calls is as before. *)
Theorem execute_unrecognized (x : string) (args : list string) (m : Machine) :
  _commands (the_bindings m) !! x = None ->
  _default (the_bindings m) = PyNone ->
  Bindings.execute call (x :: args) m
  = (Raise (CommandBindingException (x ++ ": command not recognized")%string),
     with_args args m)
  /\ invoked (snd (Bindings.execute call (x :: args) m)) = invoked m.
Proof.
  intros Hx Hd.
  assert (He : Bindings.execute call (x :: args) m
               = (Raise (CommandBindingException (x ++ ": command not recognized")%string),
                  with_args args m)).
  { apply execute_uncallable. unfold Bindings.lookup. now rewrite Hx, Hd. }
  split; [exact He|]. now rewrite He.
Qed.

(** C5: [execute] with a command overwrites the stored arguments with the
    elements after the first before the outcome of the lookup is known:
    when the dispatch fails with [CommandBindingException] the new
    arguments (and [argc]) are in place afterwards, and when it succeeds
    the handler is called on the machine that already holds them. *)
Theorem execute_overwrites_args (c : string) (rest : list string) (m : Machine) :
  (callable (Bindings.lookup c (the_bindings m)) = false ->
   let (r, m') := Bindings.execute call (c :: rest) m in
   r = Raise (CommandBindingException (c ++ ": command not recognized")%string)
   /\ _args (the_bindings m') = rest
   /\ Bindings.argc (the_bindings m') = Z.of_nat (length rest))
  /\ (forall h, Bindings.lookup c (the_bindings m) = PyFun h ->
      exists m1, _args (the_bindings m1) = rest
                 /\ Bindings.execute call (c :: rest) m = Bindings.invoke call h m1).
Proof.
  split.
  - intros Hl. rewrite (execute_uncallable _ _ _ Hl). repeat split.
  - intros h Hl. exists (with_args rest m). split; [reflexivity|].
    now apply execute_callable.
Qed.

(** C6: a command that is not registered, with a default handler set,
    makes [execute] call the default handler with exactly the remaining
    arguments and return what it returns (or raises); with no further
    argument the handler gets none. *)
Theorem execute_default (x : string) (args : list string) (d : hid) (m : Machine) :
  _commands (the_bindings m) !! x = None ->
  _default (the_bindings m) = PyFun d ->
  Bindings.execute call (x :: args) m
  = (fst (call d args (world (with_args args m))),
     mkMachine (snd (call d args (world (with_args args m))))
               (invoked m ++ [(d, args)])).
Proof.
  intros Hx Hd.
  rewrite (execute_callable x args m d).
  - now rewrite invoke_eq.
  - unfold Bindings.lookup. now rewrite Hx, Hd.
Qed.

(** C8: [execute] with no argument at all returns at once: nothing is
    raised, no handler is called, and the machine, with its stored
    arguments and [argc], is as before. *)
Theorem execute_nothing (m : Machine) :
  Bindings.execute call [] m = (Ret PyNone, m)
  /\ invoked (snd (Bindings.execute call [] m)) = invoked m
  /\ _args (the_bindings (snd (Bindings.execute call [] m))) = _args (the_bindings m)
  /\ Bindings.argc (the_bindings (snd (Bindings.execute call [] m)))
     = Bindings.argc (the_bindings m).
Proof. repeat split. Qed.

(** C10: [execute] raises [CommandBindingException] with
    [c ++ ": command not recognized"] whenever the value found by the
    lookup is not callable; so it does for a command that [add] bound to a
    value that is not callable, although the command is in the mapping,
    and nothing is called. *)
Theorem execute_not_callable (c : string) (args : list string) :
  (forall m, callable (Bindings.lookup c (the_bindings m)) = false ->
     Bindings.execute call (c :: args) m
     = (Raise (CommandBindingException (c ++ ": command not recognized")%string),
        with_args args m))
  /\ (forall m v, callable v = false ->
        Bindings.contains c (the_bindings (after_add c v m)) = true
        /\ Bindings.execute call (c :: args) (after_add c v m)
           = (Raise (CommandBindingException (c ++ ": command not recognized")%string),
              with_args args (after_add c v m))
        /\ invoked (with_args args (after_add c v m)) = invoked m).
Proof.
  split.
  - intros m Hl. now apply execute_uncallable.
  - intros m v Hv.
    assert (Hk : _commands (the_bindings (after_add c v m)) !! c = Some v)
      by (simpl; apply lookup_insert_eq).
    repeat split.
    + unfold Bindings.contains. apply bool_decide_eq_true. now rewrite Hk.
    + apply execute_uncallable. unfold Bindings.lookup. now rewrite Hk.
Qed.
End Dispatch.

(** ** The order of [asList] *)

Lemma compare_as_OT (a b : string) : String.compare a b = String_as_OT.compare a b.
Proof.
  revert b. induction a as [|x a IH]; intros [|y b]; reflexivity.
Qed.

Lemma str_lt_trans (a b c : string) : str_lt a b -> str_lt b c -> str_lt a c.
Proof.
  unfold str_lt. rewrite !compare_as_OT.
  apply (@StrictOrder_Transitive _ _ String_as_OT.lt_strorder).
Qed.

Lemma str_le_lt_eq (a b : string) : str_le a b <-> str_lt a b \/ a = b.
Proof.
  unfold str_le, str_lt, String.leb. split.
  - destruct (String.compare a b) eqn:E; try discriminate; auto.
    right. now apply String.compare_eq_iff.
  - intros [-> | ->]; [reflexivity|].
    destruct (String.compare b b) eqn:E; try reflexivity.
    pose proof (String.compare_antisym b b) as H. rewrite E in H. discriminate.
Qed.

#[local] Instance str_le_total : Total str_le.
Proof. intros a b. apply String.leb_total. Qed.

#[local] Instance str_le_trans : Transitive str_le.
Proof.
  intros a b c. rewrite !str_le_lt_eq.
  intros [Hab | ->] [Hbc | ->]; eauto using str_lt_trans.
Qed.

Lemma StronglySorted_strict (l : list string) :
  StronglySorted str_le l -> NoDup l -> StronglySorted str_lt l.
Proof.
  induction 1 as [|a l Hs IH Ha]; intros Hnd; constructor.
  - apply IH. now apply NoDup_cons_1_2 in Hnd.
  - apply NoDup_cons_1_1 in Hnd.
    rewrite Forall_forall in *. intros x Hx.
    destruct (proj1 (str_le_lt_eq a x) (Ha x Hx)) as [Hlt | ->]; [exact Hlt|].
    exfalso. now apply Hnd.
Qed.

Lemma sorted_Permutation (l : list string) : sorted l ≡ₚ l.
Proof. apply merge_sort_Permutation. Qed.

Lemma asList_NoDup (b : BindingsState) : NoDup (Bindings.asList b).
Proof.
  unfold Bindings.asList. rewrite sorted_Permutation.
  apply NoDup_fst_map_to_list.
Qed.

Lemma asList_sorted (b : BindingsState) : StronglySorted str_lt (Bindings.asList b).
Proof.
  apply StronglySorted_strict; [|apply asList_NoDup].
  unfold Bindings.asList, sorted. apply StronglySorted_merge_sort; apply _.
Qed.

Lemma asList_elem_of (b : BindingsState) (c : string) :
  c ∈ Bindings.asList b <-> is_Some (_commands b !! c).
Proof.
  unfold Bindings.asList. rewrite sorted_Permutation, list_elem_of_fmap. split.
  - intros [[k v] [-> Hm]]. apply elem_of_map_to_list in Hm. now exists v.
  - intros [v Hv]. exists (c, v). split; [reflexivity|].
    now apply elem_of_map_to_list.
Qed.

(** ** Registrations *)

Lemma registered_snoc (rs : list registration) (r : registration) :
  registered (rs ++ [r]) = register_one (registered rs) r.
Proof. unfold registered. now rewrite foldl_snoc. Qed.

Lemma registered_lookup_last (rs : list registration) (c : string) (h : pyval) :
  _commands (registered rs) !! c = Some h
  <-> exists rs1 rs2 : list registration, rs = (rs1 ++ Add c h :: rs2)%list /\ forall h', Add c h' ∉ rs2.
Proof.
  revert h. induction rs as [|r rs IH] using rev_ind; intros h.
  - split; [intros H; cbn in H; now rewrite lookup_empty in H|].
    intros (rs1 & rs2 & E & _). now destruct rs1.
  - rewrite registered_snoc. split.
    + destruct r as [c' h'|d]; simpl.
      * destruct (decide (c' = c)) as [->|Hne].
        -- rewrite lookup_insert_eq. intros [= ->].
           exists rs, []. split; [reflexivity|]. intros h'' Hin. inversion Hin.
        -- rewrite lookup_insert_ne by exact Hne. intros Hl.
           apply IH in Hl as (rs1 & rs2 & -> & Hnot).
           exists rs1, (rs2 ++ [Add c' h']). split; [now rewrite <- app_assoc|].
           intros h'' Hin. apply elem_of_app in Hin as [Hin|Hin]; [now apply (Hnot h'')|].
           apply list_elem_of_singleton in Hin. congruence.
      * intros Hl. apply IH in Hl as (rs1 & rs2 & -> & Hnot).
        exists rs1, (rs2 ++ [SetDefault d]). split; [now rewrite <- app_assoc|].
        intros h'' Hin. apply elem_of_app in Hin as [Hin|Hin]; [now apply (Hnot h'')|].
        apply list_elem_of_singleton in Hin. discriminate.
    + intros (rs1 & rs2 & E & Hnot).
      destruct rs2 as [|r2 rs2 _] using rev_ind.
      * apply app_inj_tail in E as [-> ->]. simpl. apply lookup_insert_eq.
      * rewrite app_comm_cons, app_assoc in E. apply app_inj_tail in E as [-> ->].
        assert (Hl : _commands (registered (rs1 ++ Add c h :: rs2)) !! c = Some h).
        { apply IH. exists rs1, rs2. split; [reflexivity|].
          intros h' Hin. apply (Hnot h'). apply elem_of_app. now left. }
        destruct r2 as [c' h'|d]; simpl; [|exact Hl].
        rewrite lookup_insert_ne; [exact Hl|].
        intros ->. apply (Hnot h'). apply elem_of_app. right. now apply list_elem_of_singleton.
Qed.

Lemma registered_lookup_some (rs : list registration) (c : string) :
  is_Some (_commands (registered rs) !! c) <-> exists h, Add c h ∈ rs.
Proof.
  induction rs as [|r rs IH] using rev_ind.
  - split; [intros [h H]; cbn in H; now rewrite lookup_empty in H|].
    intros [h H]. inversion H.
  - rewrite registered_snoc.
    assert (Hold : (exists h, Add c h ∈ rs ++ [r])
                   <-> (exists h, Add c h ∈ rs) \/ exists h, r = Add c h).
    { split.
      - intros [h Hin]. apply elem_of_app in Hin as [Hin|Hin]; [left; eauto|].
        apply list_elem_of_singleton in Hin. right; eauto.
      - intros [[h Hin]|[h ->]]; exists h; apply elem_of_app;
          [now left | right; now apply list_elem_of_singleton]. }
    rewrite Hold, <- IH. clear Hold IH.
    destruct r as [c' h'|d]; simpl.
    + destruct (decide (c' = c)) as [->|Hne].
      * rewrite lookup_insert_eq. split; [intros _; right; eauto | intros _; eauto].
      * rewrite lookup_insert_ne by exact Hne.
        split; [now left | intros [H|[h [= -> _]]]; [exact H | congruence]].
    + split; [now left | intros [H|[h H]]; [exact H | discriminate]].
Qed.

(** C7: after any sequence of [add] and [setDefault] calls, [asList]
    returns the registered command names in strictly ascending
    lexicographic order, hence without duplicates; a name is listed exactly
    when some [add] registered it, and it is bound to the handler of the
    most recent [add] for it.  After [add(c, h1)] and then [add(c, h2)],
    executing [c] calls [h2] and nothing else, and [c] is listed once. *)
Theorem asList_sorted_latest (rs : list registration) :
  StronglySorted str_lt (Bindings.asList (registered rs))
  /\ NoDup (Bindings.asList (registered rs))
  /\ (forall c, c ∈ Bindings.asList (registered rs) <-> exists h, Add c h ∈ rs)
  /\ (forall c h, _commands (registered rs) !! c = Some h
        <-> exists rs1 rs2 : list registration, rs = (rs1 ++ Add c h :: rs2)%list /\ forall h', Add c h' ∉ rs2)
  /\ (forall (call : handlers) (c : string) (h1 h2 : hid) (args : list string) (m : Machine),
        let m' := after_add c (PyFun h2) (after_add c (PyFun h1) m) in
        Bindings.execute call (c :: args) m' = Bindings.invoke call h2 (with_args args m')
        /\ invoked (snd (Bindings.execute call (c :: args) m')) = invoked m ++ [(h2, args)]
        /\ count_occ string_dec (Bindings.asList (the_bindings m')) c = 1).
Proof.
  split; [apply asList_sorted|].
  split; [apply asList_NoDup|].
  split; [intros c; rewrite asList_elem_of; apply registered_lookup_some|].
  split; [intros c h; apply registered_lookup_last|].
  intros call c h1 h2 args m m'.
  assert (Hk : _commands (the_bindings m') !! c = Some (PyFun h2))
    by (simpl; apply lookup_insert_eq).
  assert (He : Bindings.execute call (c :: args) m' = Bindings.invoke call h2 (with_args args m')).
  { apply execute_callable. unfold Bindings.lookup. now rewrite Hk. }
  split; [exact He|]. split.
  - rewrite He, invoke_eq. reflexivity.
  - apply NoDup_count_occ'.
    + apply NoDup_ListNoDup, asList_NoDup.
    + apply list_elem_of_In, asList_elem_of. now rewrite Hk.
Qed.

(** ** Stored arguments *)

Lemma getitem_nonneg {A} (l : list A) (i : Z) :
  (0 <= i < Z.of_nat (length l))%Z ->
  exists x, l !! Z.to_nat i = Some x /\ getitem l i = Ret x.
Proof.
  intros Hi. unfold getitem.
  destruct (i <? 0)%Z eqn:E1; [lia|].
  destruct (i <? 0)%Z eqn:E2; [lia|].
  destruct (Z.of_nat (length l) <=? i)%Z eqn:E3; [lia|]. simpl.
  destruct (lookup_lt_is_Some_2 l (Z.to_nat i)) as [x Hx]; [lia|].
  exists x. now rewrite Hx.
Qed.

Lemma getitem_negative {A} (l : list A) (i : Z) :
  (- Z.of_nat (length l) <= i < 0)%Z ->
  exists x, l !! Z.to_nat (Z.of_nat (length l) + i) = Some x /\ getitem l i = Ret x.
Proof.
  intros Hi. unfold getitem.
  destruct (i <? 0)%Z eqn:E1; [|lia].
  destruct (i + Z.of_nat (length l) <? 0)%Z eqn:E2; [lia|].
  destruct (Z.of_nat (length l) <=? i + Z.of_nat (length l))%Z eqn:E3; [lia|]. simpl.
  replace (i + Z.of_nat (length l))%Z with (Z.of_nat (length l) + i)%Z by lia.
  destruct (lookup_lt_is_Some_2 l (Z.to_nat (Z.of_nat (length l) + i))) as [x Hx]; [lia|].
  exists x. now rewrite Hx.
Qed.

(** C3, as the code has it: [getArg] returns the stored argument at
    [index] when [0 <= index < argc], the fallback when [index >= argc],
    and, for [-argc <= index < 0], the stored argument at [argc + index]
    (a negative index counts from the end). *)
Theorem getArg_by_index (index : Z) (default : pyval) (self : BindingsState) :
  ((0 <= index < Bindings.argc self)%Z ->
   exists s, _args self !! Z.to_nat index = Some s
             /\ Bindings.getArg index default self = Ret (PyStr s))
  /\ ((Bindings.argc self <= index)%Z ->
      Bindings.getArg index default self = Ret default)
  /\ ((- Bindings.argc self <= index < 0)%Z ->
      exists s, _args self !! Z.to_nat (Bindings.argc self + index) = Some s
                /\ Bindings.getArg index default self = Ret (PyStr s)).
Proof.
  unfold Bindings.getArg, Bindings.argc. repeat split.
  - intros Hi. destruct (getitem_nonneg (_args self) index Hi) as (s & Hs & Hg).
    exists s. split; [exact Hs|].
    destruct (index >=? _)%Z eqn:E; [lia|]. now rewrite Hg.
  - intros Hi. destruct (index >=? _)%Z eqn:E; [reflexivity|lia].
  - intros Hi. destruct (getitem_negative (_args self) index Hi) as (s & Hs & Hg).
    exists s. split; [exact Hs|].
    destruct (index >=? _)%Z eqn:E; [lia|]. now rewrite Hg.
Qed.

(** Below [-argc] the index is out of range for the sequence, and the
    [IndexError] of the subscript comes out of [getArg]. *)
Lemma getArg_below_range (index : Z) (default : pyval) (self : BindingsState) :
  (index < - Bindings.argc self)%Z ->
  Bindings.getArg index default self = Raise IndexError.
Proof.
  unfold Bindings.getArg, Bindings.argc, getitem. intros Hi.
  destruct (index >=? _)%Z eqn:E; [lia|].
  destruct (index <? 0)%Z eqn:E1; [|lia].
  destruct (index + Z.of_nat (length (_args self)) <? 0)%Z eqn:E2; [reflexivity|lia].
Qed.

(** ** The loops of the console *)

Section Loops.
Variable call : handlers.
Variable shlex_split : string -> Res (list string).

Abbreviation process := (Console._process_command call shlex_split).

Lemma run_loop_passes (n : nat) (m m' : Machine) :
  passes call shlex_split n m m' ->
  forall fuel, Console.run_loop call shlex_split (n + fuel) m
               = Console.run_loop call shlex_split fuel m'.
Proof.
  induction 1 as [m | n m m1 m' Hr Hb _ IH]; intros fuel; [reflexivity|].
  simpl. rewrite Hr, Hb. apply IH.
Qed.

Lemma run_enter_eq (m : Machine) :
  (Console.show_greeting >> modify_con (set_running true)) m = (Ret tt, run_enter m).
Proof.
  unfold run_enter, bind, Console.show_greeting.
  now destruct (_greeting (con (world m))).
Qed.

Lemma show_greeting_eq (m : Machine) :
  Console.show_greeting m = (Ret tt, greeted m).
Proof.
  unfold greeted, Console.show_greeting.
  now destruct (_greeting (con (world m))).
Qed.

Lemma run_body_line (m : Machine) (line : string) (rest : list stdin_event) :
  stdin (world m) = Line line :: rest ->
  Console.run_body call shlex_split m = process line (prompted m rest).
Proof.
  intros Hs. unfold Console.run_body, bind, liftW, input. now rewrite Hs.
Qed.

(** What processing a line does when its first word is bound to a
    function object. *)
Lemma process_dispatch (line c : string) (args : list string) (h : hid)
      (m : Machine) (r : Res pyval) (w' : World) :
  shlex_split line = Ret (c :: args) ->
  Bindings.lookup c (the_bindings m) = PyFun h ->
  call h args (world (with_args args m)) = (r, w') ->
  process line m
  = match r with
    | Ret _ => (Ret tt, mkMachine w' (invoked m ++ [(h, args)]))
    | Raise (CommandBindingException msg) =>
        Console.display [msg] (mkMachine w' (invoked m ++ [(h, args)]))
    | Raise e => (Raise e, mkMachine w' (invoked m ++ [(h, args)]))
    end.
Proof.
  intros Hsp Hl Hc.
  unfold Console._process_command, bind at 1. rewrite Hsp.
  unfold try_except, bind.
  rewrite (execute_callable call c args m h Hl), invoke_eq.
  rewrite with_args_args, Hc. simpl.
  destruct r as [v|e]; [reflexivity|]. now destruct e.
Qed.

Lemma for_each_app (pre post : list string) (m mk : Machine) :
  for_each process pre m = (Ret tt, mk) ->
  for_each process (pre ++ post) m = for_each process post mk.
Proof.
  revert m. induction pre as [|l pre IH]; intros m; simpl.
  - now intros [= ->].
  - unfold bind. destruct (process l m) as [[[]|e] m1]; [apply IH|discriminate].
Qed.

Lemma execute_from (filename text : string) (pre rest : list string) (m mk : Machine) :
  files (world m) !! filename = Some text ->
  readlines text = pre ++ rest ->
  for_each process pre (greeted m) = (Ret tt, mk) ->
  Console.execute call shlex_split filename m
  = try_except (for_each process rest) Console.execute_except mk.
Proof.
  intros Hf Hl Hp.
  unfold Console.execute, bind at 1. rewrite show_greeting_eq.
  unfold try_except, bind, liftW, open_read.
  assert (Hf' : files (world (greeted m)) !! filename = Some text).
  { unfold greeted, Console.show_greeting.
    now destruct (_greeting (con (world m))). }
  rewrite Hf'. simpl. replace (set_world (world (greeted m)) (greeted m)) with (greeted m)
    by now destruct (greeted m).
  now rewrite Hl, (for_each_app pre rest _ mk Hp).
Qed.

(** C2: [Console.execute] goes through the lines of the script file in
    file order and never looks at the running flag: once the lines before
    a line have been processed, that line is processed next and the
    remaining ones after it, whatever the flag is by then (so also after
    a handler called [stop()]); and when all the lines have been
    processed, [execute] returns in the state the last one left. *)
Theorem execute_processes_every_line (filename text : string) (m : Machine) :
  files (world m) !! filename = Some text ->
  (forall (pre : list string) (line : string) (post : list string) (mk : Machine),
      readlines text = pre ++ line :: post ->
      for_each process pre (greeted m) = (Ret tt, mk) ->
      Console.execute call shlex_split filename m
      = try_except (process line >> for_each process post) Console.execute_except mk)
  /\ (forall m' : Machine,
        for_each process (readlines text) (greeted m) = (Ret tt, m') ->
        Console.execute call shlex_split filename m = (Ret tt, m')).
Proof.
  intros Hf. split.
  - intros pre line post mk Hl Hp.
    now rewrite (execute_from filename text pre (line :: post) m mk).
  - intros m' Hp.
    rewrite (execute_from filename text (readlines text) [] m m' Hf);
      [reflexivity | now rewrite app_nil_r | exact Hp].
Qed.

(** C9: in [Console.run] the running flag is looked at before each pass
    of the loop: when the handler called for an input line returns having
    called [stop()], [run] returns in the very state the handler left,
    so no further input is read. *)
Theorem run_stops_after_stop
        (n fuel : nat) (m mk : Machine) (line : string) (rest : list stdin_event)
        (c : string) (args : list string) (h : hid) (v : pyval) (w' : World) :
  passes call shlex_split n (run_enter m) mk ->
  _running (con (world mk)) = true ->
  stdin (world mk) = Line line :: rest ->
  shlex_split line = Ret (c :: args) ->
  Bindings.lookup c (the_bindings mk) = PyFun h ->
  call h args (world (with_args args (prompted mk rest))) = (Ret v, w') ->
  _running (con w') = false ->
  Console.run call shlex_split (n + (2 + fuel)) m
  = Some (Ret tt, mkMachine w' (invoked mk ++ [(h, args)])).
Proof.
  intros Hp Hr Hs Hsp Hl Hc Hstop.
  unfold Console.run. rewrite run_enter_eq, (run_loop_passes n _ _ Hp).
  simpl. rewrite Hr, (run_body_line mk line rest Hs).
  rewrite (process_dispatch line c args h (prompted mk rest) (Ret v) w' Hsp Hl Hc).
  simpl. now rewrite Hstop.
Qed.

(** C4, as the code has it: an error raised by a registered handler
    comes out of [Console.run] unless it is a [CommandBindingException]
    or a [KeyboardInterrupt], and out of [Console.execute] unless it is
    one of these or an [OSError]. *)
Theorem handler_error_propagates (e : exn) (h : hid) (w' : World) :
  is_CommandBindingException e = false ->
  is_KeyboardInterrupt e = false ->
  (forall (n fuel : nat) (m mk : Machine) (line : string) (rest : list stdin_event)
          (c : string) (args : list string),
      passes call shlex_split n (run_enter m) mk ->
      _running (con (world mk)) = true ->
      stdin (world mk) = Line line :: rest ->
      shlex_split line = Ret (c :: args) ->
      _commands (the_bindings mk) !! c = Some (PyFun h) ->
      call h args (world (with_args args (prompted mk rest))) = (Raise e, w') ->
      Console.run call shlex_split (n + (1 + fuel)) m
      = Some (Raise e, mkMachine w' (invoked mk ++ [(h, args)])))
  /\ (forall (filename text : string) (pre : list string) (line : string)
             (post : list string) (m mk : Machine) (c : string) (args : list string),
      is_OSError e = false ->
      files (world m) !! filename = Some text ->
      readlines text = pre ++ line :: post ->
      for_each process pre (greeted m) = (Ret tt, mk) ->
      shlex_split line = Ret (c :: args) ->
      _commands (the_bindings mk) !! c = Some (PyFun h) ->
      call h args (world (with_args args mk)) = (Raise e, w') ->
      Console.execute call shlex_split filename m
      = (Raise e, mkMachine w' (invoked mk ++ [(h, args)]))).
Proof.
  intros Hcbe Hki. split.
  - intros n fuel m mk line rest c args Hp Hr Hs Hsp Hk Hc.
    assert (Hl : Bindings.lookup c (the_bindings (prompted mk rest)) = PyFun h)
      by (unfold Bindings.lookup, the_bindings in *; simpl; now rewrite Hk).
    unfold Console.run. rewrite run_enter_eq, (run_loop_passes n _ _ Hp).
    simpl. rewrite Hr, (run_body_line mk line rest Hs).
    rewrite (process_dispatch line c args h (prompted mk rest) (Raise e) w' Hsp Hl Hc).
    destruct e; simpl in *; try discriminate; reflexivity.
  - intros filename text pre line post m mk c args Hos Hf Hrl Hp Hsp Hk Hc.
    assert (Hl : Bindings.lookup c (the_bindings mk) = PyFun h)
      by (unfold Bindings.lookup; now rewrite Hk).
    rewrite (execute_from filename text pre (line :: post) m mk Hf Hrl Hp).
    unfold try_except. simpl for_each. unfold bind at 1.
    rewrite (process_dispatch line c args h mk (Raise e) w' Hsp Hl Hc).
    destruct e; simpl in *; try discriminate; reflexivity.
Qed.
End Loops.

(** * Further properties *)

(** ** Registration and lookup *)

#[local] Instance str_le_antisymm : AntiSymm (=) str_le.
Proof. intros a b. apply String.leb_antisym. Qed.

Lemma sorted_unique (l k : list string) : l ≡ₚ k -> sorted l = sorted k.
Proof.
  intros Hp. unfold sorted.
  apply (Sorted_unique str_le); try apply Sorted_merge_sort; try apply _.
  now rewrite !merge_sort_Permutation.
Qed.

Lemma keys_insert_present (cs : gmap string pyval) (c : string) (h : pyval) :
  is_Some (cs !! c) -> (map_to_list (<[c := h]> cs)).*1 ≡ₚ (map_to_list cs).*1.
Proof.
  intros Hc. apply NoDup_Permutation; try apply NoDup_fst_map_to_list.
  intros x. rewrite !list_elem_of_fmap. split.
  - intros [[k v] [-> Hm]]. apply elem_of_map_to_list in Hm. simpl.
    destruct (decide (c = k)) as [->|Hne].
    + destruct Hc as [v' Hv']. exists (k, v'). split; [reflexivity|].
      now apply elem_of_map_to_list.
    + rewrite lookup_insert_ne in Hm by exact Hne. exists (k, v).
      split; [reflexivity|]. now apply elem_of_map_to_list.
  - intros [[k v] [-> Hm]]. apply elem_of_map_to_list in Hm. simpl.
    destruct (decide (c = k)) as [->|Hne].
    + exists (k, h). split; [reflexivity|].
      apply elem_of_map_to_list. apply lookup_insert_eq.
    + exists (k, v). split; [reflexivity|].
      apply elem_of_map_to_list. now rewrite lookup_insert_ne.
Qed.

(** X1: [getArg] raises exactly when the index lies below [-argc], and
    what it raises then is the [IndexError] of the subscript; for every
    other index it returns a value. *)
Theorem getArg_raises_iff (index : Z) (default : pyval) (self : BindingsState) :
  (Bindings.getArg index default self = Raise IndexError
   <-> (index < - Bindings.argc self)%Z)
  /\ ((exists v, Bindings.getArg index default self = Ret v)
      <-> (- Bindings.argc self <= index)%Z).
Proof.
  assert (Hlow : (index < - Bindings.argc self)%Z ->
                 Bindings.getArg index default self = Raise IndexError)
    by apply getArg_below_range.
  assert (Hup : (- Bindings.argc self <= index)%Z ->
                exists v, Bindings.getArg index default self = Ret v).
  { intros Hi. unfold Bindings.getArg, Bindings.argc in *.
    destruct (index >=? _)%Z eqn:E; [now exists default|].
    destruct (Z_lt_le_dec index 0) as [Hneg|Hpos].
    - destruct (getitem_negative (_args self) index) as (s & _ & ->); [lia|].
      now exists (PyStr s).
    - destruct (getitem_nonneg (_args self) index) as (s & _ & ->); [lia|].
      now exists (PyStr s). }
  split; split; auto.
  - intros Hr. destruct (Z_lt_le_dec index (- Bindings.argc self)) as [|Hi]; [assumption|].
    destruct (Hup Hi) as [v Hv]. congruence.
  - intros [v Hv]. destruct (Z_lt_le_dec index (- Bindings.argc self)) as [Hi|]; [|assumption].
    rewrite (Hlow Hi) in Hv. discriminate.
Qed.

(** X2: the membership test and the listing agree: a command is [in] the
    bindings exactly when [asList] lists it. *)
Theorem contains_iff_asList (c : string) (self : BindingsState) :
  Bindings.contains c self = true <-> c ∈ Bindings.asList self.
Proof.
  unfold Bindings.contains. rewrite bool_decide_eq_true. symmetry.
  apply asList_elem_of.
Qed.

(** X3: [add] returns its handler; on a command that is already bound it
    leaves [asList] as it is, and on a new command it adds that one name
    to it. *)
Theorem add_asList (c : string) (h : pyval) (self : BindingsState) :
  fst (Bindings.add c h self) = h
  /\ (Bindings.contains c self = true ->
      Bindings.asList (snd (Bindings.add c h self)) = Bindings.asList self)
  /\ (Bindings.contains c self = false ->
      Bindings.asList (snd (Bindings.add c h self)) ≡ₚ c :: Bindings.asList self).
Proof.
  unfold Bindings.contains, Bindings.asList. simpl. repeat split.
  - rewrite bool_decide_eq_true. intros Hc.
    apply sorted_unique. now apply keys_insert_present.
  - rewrite bool_decide_eq_false. intros Hc.
    rewrite !sorted_Permutation.
    assert (Hn : _commands self !! c = None).
    { destruct (_commands self !! c) eqn:E; [|reflexivity]. exfalso. apply Hc. eauto. }
    now rewrite (map_to_list_insert _ _ _ Hn).
Qed.

(** X4: registrations compose as on a mapping: for two different commands
    the order of the two [add] calls does not matter, and for one command
    the second [add] alone decides. *)
Theorem add_add (c1 c2 : string) (h1 h2 : pyval) (self : BindingsState) :
  (c1 <> c2 ->
   snd (Bindings.add c1 h1 (snd (Bindings.add c2 h2 self)))
   = snd (Bindings.add c2 h2 (snd (Bindings.add c1 h1 self))))
  /\ snd (Bindings.add c1 h2 (snd (Bindings.add c1 h1 self)))
     = snd (Bindings.add c1 h2 self).
Proof.
  unfold Bindings.add. simpl. split.
  - intros Hne. f_equal. now apply insert_insert_ne.
  - f_equal. apply insert_insert_eq.
Qed.

(** X5: a default handler does not touch the registrations: [asList] is
    as before, and a command bound to a function object is still served by
    that object, which alone is called. *)
Theorem registered_beats_default
        (call : handlers) (c : string) (args : list string) (h : hid) (d : pyval)
        (m : Machine) :
  _commands (the_bindings m) !! c = Some (PyFun h) ->
  Bindings.asList (the_bindings (after_setDefault d m)) = Bindings.asList (the_bindings m)
  /\ Bindings.execute call (c :: args) (after_setDefault d m)
     = Bindings.invoke call h (with_args args (after_setDefault d m))
  /\ invoked (snd (Bindings.execute call (c :: args) (after_setDefault d m)))
     = invoked m ++ [(h, args)].
Proof.
  intros Hk.
  assert (He : Bindings.execute call (c :: args) (after_setDefault d m)
               = Bindings.invoke call h (with_args args (after_setDefault d m))).
  { apply execute_callable. unfold Bindings.lookup, the_bindings in *. simpl.
    now rewrite Hk. }
  split; [reflexivity|]. split; [exact He|].
  rewrite He, invoke_eq. reflexivity.
Qed.

(** X6: the handler that [execute] calls can read its arguments back from
    the console: in the world it is called on, [argc] is the number of
    arguments, [getArg] at a position returns the argument there, and
    [getArg] at or past [argc] returns the fallback. *)
Theorem handler_reads_args
        (call : handlers) (c : string) (args : list string) (h : hid) (m : Machine) :
  Bindings.lookup c (the_bindings m) = PyFun h ->
  let w := world (with_args args m) in
  Bindings.execute call (c :: args) m
  = (fst (call h args w), mkMachine (snd (call h args w)) (invoked m ++ [(h, args)]))
  /\ Console.argc (con w) = Z.of_nat (length args)
  /\ (forall (i : nat) (s : string) (d : pyval),
        args !! i = Some s -> Console.getArg (Z.of_nat i) d (con w) = Ret (PyStr s))
  /\ (forall (i : Z) (d : pyval),
        (Z.of_nat (length args) <= i)%Z -> Console.getArg i d (con w) = Ret d).
Proof.
  intros Hl w. split; [|split; [reflexivity|split]].
  - rewrite (execute_callable call c args m h Hl), invoke_eq. reflexivity.
  - intros i s d Hs.
    unfold Console.getArg, Bindings.getArg, Bindings.argc. simpl.
    pose proof (lookup_lt_Some _ _ _ Hs) as Hlt.
    destruct (Z.of_nat i >=? _)%Z eqn:E; [lia|].
    destruct (getitem_nonneg args (Z.of_nat i)) as (x & Hx & ->); [lia|].
    rewrite Nat2Z.id in Hx. congruence.
  - intros i d Hi.
    unfold Console.getArg, Bindings.getArg, Bindings.argc. simpl.
    destruct (i >=? _)%Z eqn:E; [reflexivity|lia].
Qed.

(** ** The console's registry and output *)

(** X7: [register] returns the handler it was given, so decorators can be
    stacked: after two stacked registrations both commands are bound to the
    one handler, and [commandList] has gained these two names and no
    other. *)
Theorem register_stack (c1 c2 : string) (h : pyval) (self : ConsoleState) :
  let r1 := Console.register c1 h self in
  let r2 := Console.register c2 (fst r1) (snd r1) in
  fst r2 = h
  /\ _commands (_bindings (snd r2)) !! c1 = Some h
  /\ _commands (_bindings (snd r2)) !! c2 = Some h
  /\ (forall c, c ∈ Console.commandList (snd r2)
                <-> c = c1 \/ c = c2 \/ c ∈ Console.commandList self).
Proof.
  simpl. split; [reflexivity|]. split; [|split].
  - destruct (decide (c2 = c1)) as [->|Hne].
    + apply lookup_insert_eq.
    + rewrite lookup_insert_ne by exact Hne. apply lookup_insert_eq.
  - apply lookup_insert_eq.
  - intros c. unfold Console.commandList. rewrite !asList_elem_of. simpl.
    destruct (decide (c = c2)) as [->|Hne2].
    { rewrite lookup_insert_eq. split; [eauto|intros _; eauto]. }
    rewrite lookup_insert_ne by congruence.
    destruct (decide (c = c1)) as [->|Hne1].
    { rewrite lookup_insert_eq. split; [eauto|intros _; eauto]. }
    rewrite lookup_insert_ne by congruence.
    split; [eauto|]. intros [?|[?|?]]; [congruence|congruence|assumption].
Qed.

(** X8: an attached object is what [getObject] returns for its key,
    whatever the fallback; attaching under one key leaves the other keys
    as they were, and a key with nothing attached yields the fallback. *)
Theorem attach_getObject (key : string) (obj : pyval) (self : ConsoleState) :
  (forall d, Console.getObject key d (Console.attach key obj self) = obj)
  /\ (forall k d, k <> key ->
        Console.getObject k d (Console.attach key obj self) = Console.getObject k d self)
  /\ (forall k d, _objects self !! k = None -> Console.getObject k d self = d)
  /\ _bindings (Console.attach key obj self) = _bindings self
  /\ _running (Console.attach key obj self) = _running self.
Proof.
  unfold Console.getObject, Console.attach. simpl. repeat split.
  - intros d. now rewrite lookup_insert_eq.
  - intros k d Hne. now rewrite lookup_insert_ne.
  - intros k d ->. reflexivity.
Qed.

Lemma append_cons (x : ascii) (a b : string) :
  (String x a ++ b = String x (a ++ b))%string.
Proof. reflexivity. Qed.

Lemma append_assoc (a b c : string) : ((a ++ b) ++ c = a ++ (b ++ c))%string.
Proof.
  induction a as [|x a IH]; [reflexivity|].
  rewrite !append_cons. now f_equal.
Qed.

Lemma append_nil_r (a : string) : (a ++ "" = a)%string.
Proof.
  induction a as [|x a IH]; [reflexivity|].
  rewrite append_cons. now f_equal.
Qed.

Lemma display_world_printed (messages : list string) (w : World) :
  Console.display_world messages w
  = mkWorld (con w) (stdout w ++ printed messages)%string (stdin w) (files w).
Proof.
  unfold Console.display_world. revert w.
  induction messages as [|a l IH]; intros w; simpl.
  - rewrite append_nil_r. now destruct w.
  - rewrite IH. unfold print. cbn [con stdout stdin files].
    f_equal. now rewrite !append_assoc.
Qed.

(** X9: [display] writes its messages in order, each followed by a
    newline, after what was written before, and changes nothing else;
    displaying two batches one after the other is displaying them at
    once. *)
Theorem display_prints (messages more : list string) (m : Machine) :
  Console.display messages m
  = (Ret tt,
     mkMachine
       (mkWorld (con (world m)) (stdout (world m) ++ printed messages)%string
                (stdin (world m)) (files (world m)))
       (invoked m))
  /\ (Console.display messages >> Console.display more) m
     = Console.display (messages ++ more) m.
Proof.
  split.
  - unfold Console.display. now rewrite display_world_printed.
  - unfold bind, Console.display, Console.display_world. simpl.
    now rewrite foldl_app.
Qed.

(** ** The interactive loop *)

Section MoreLoops.
Variable call : handlers.
Variable shlex_split : string -> Res (list string).

Abbreviation process' := (Console._process_command call shlex_split).

Lemma passes_snoc (n : nat) (m mk m' : Machine) :
  passes call shlex_split n m mk ->
  _running (con (world mk)) = true ->
  Console.run_body call shlex_split mk = (Ret tt, m') ->
  passes call shlex_split (S n) m m'.
Proof.
  induction 1 as [m | n m m1 mk Hr Hb _ IH]; intros Hrk Hbk.
  - apply (passes_S _ _ 0 m m' m' Hrk Hbk). apply passes_O.
  - apply (passes_S _ _ (S n) m m1 m' Hr Hb). now apply IH.
Qed.

Lemma run_body_interrupt (m : Machine) (rest : list stdin_event) :
  stdin (world m) = Interrupt :: rest ->
  Console.run_body call shlex_split m = (Raise KeyboardInterrupt, prompted m rest).
Proof.
  intros Hs. unfold Console.run_body, bind, liftW, input. now rewrite Hs.
Qed.

Lemma run_body_eof (m : Machine) :
  stdin (world m) = [] ->
  Console.run_body call shlex_split m = (Raise EOFError, prompted m []).
Proof.
  intros Hs. unfold Console.run_body, bind, liftW, input. now rewrite Hs.
Qed.

Lemma process_blank (line : string) (m : Machine) :
  shlex_split line = Ret [] -> process' line m = (Ret tt, m).
Proof.
  intros Hsp. unfold Console._process_command, bind at 1. now rewrite Hsp.
Qed.

Lemma process_split_error (line : string) (e : exn) (m : Machine) :
  shlex_split line = Raise e -> process' line m = (Raise e, m).
Proof.
  intros Hsp. unfold Console._process_command, bind at 1. now rewrite Hsp.
Qed.

Lemma process_unrecognized (line c : string) (args : list string) (m : Machine) :
  shlex_split line = Ret (c :: args) ->
  callable (Bindings.lookup c (the_bindings m)) = false ->
  process' line m
  = Console.display [(c ++ ": command not recognized")%string] (with_args args m).
Proof.
  intros Hsp Hl. unfold Console._process_command, bind at 1. rewrite Hsp.
  unfold try_except, bind.
  now rewrite (execute_uncallable call c args m Hl).
Qed.

(** X10: [run] sets the running flag itself, so the flag it finds does not
    matter: a [stop()] before [run()] changes nothing of what [run] does. *)
Theorem run_ignores_flag (fuel : nat) (r : bool) (m : Machine) :
  Console.run call shlex_split fuel (snd (modify_con (set_running r) m))
  = Console.run call shlex_split fuel m.
Proof.
  unfold Console.run.
  assert (He : (Console.show_greeting >> modify_con (set_running true))
                 (snd (modify_con (set_running r) m))
               = (Console.show_greeting >> modify_con (set_running true)) m).
  { unfold bind, Console.show_greeting, modify_con. simpl.
    destruct (_greeting (con (world m))); reflexivity. }
  now rewrite He.
Qed.

(** X11: CTRL+C at the prompt ends [run] without an error: after the
    prompt, an empty line and ["Exiting..."] are written and [run]
    returns; the console object is as the last pass left it. *)
Theorem run_interrupt_at_prompt
        (n fuel : nat) (m mk : Machine) (rest : list stdin_event) :
  passes call shlex_split n (run_enter m) mk ->
  _running (con (world mk)) = true ->
  stdin (world mk) = Interrupt :: rest ->
  Console.run call shlex_split (n + (1 + fuel)) m
  = Some (Ret tt,
          mkMachine
            (mkWorld (con (world mk))
               (stdout (world mk) ++ _prompt (con (world mk))
                ++ nl ++ "Exiting..." ++ nl)%string
               rest (files (world mk)))
            (invoked mk)).
Proof.
  intros Hp Hr Hs.
  unfold Console.run. rewrite run_enter_eq, (run_loop_passes call shlex_split n _ _ Hp).
  simpl. rewrite Hr, (run_body_interrupt mk rest Hs).
  unfold Console.display. rewrite display_world_printed. simpl.
  now rewrite !append_assoc.
Qed.

(** X12: the end of the input at the prompt is not handled: the
    [EOFError] of [input] comes out of [run], after the prompt was
    written. *)
Theorem run_eof_at_prompt (n fuel : nat) (m mk : Machine) :
  passes call shlex_split n (run_enter m) mk ->
  _running (con (world mk)) = true ->
  stdin (world mk) = [] ->
  Console.run call shlex_split (n + (1 + fuel)) m
  = Some (Raise EOFError, prompted mk []).
Proof.
  intros Hp Hr Hs.
  unfold Console.run. rewrite run_enter_eq, (run_loop_passes call shlex_split n _ _ Hp).
  simpl. now rewrite Hr, (run_body_eof mk Hs).
Qed.

(** X13: a command that is not recognized does not end the loop: the pass
    writes the prompt and the message, calls no handler, leaves the
    running flag set, and the loop is back at its top. *)
Theorem run_unrecognized_goes_on
        (n : nat) (m mk : Machine) (line : string) (rest : list stdin_event)
        (c : string) (args : list string) :
  passes call shlex_split n (run_enter m) mk ->
  _running (con (world mk)) = true ->
  stdin (world mk) = Line line :: rest ->
  shlex_split line = Ret (c :: args) ->
  callable (Bindings.lookup c (the_bindings mk)) = false ->
  exists m',
    passes call shlex_split (S n) (run_enter m) m'
    /\ _running (con (world m')) = true
    /\ invoked m' = invoked mk
    /\ stdin (world m') = rest
    /\ stdout (world m')
       = (stdout (world mk) ++ _prompt (con (world mk))
          ++ c ++ ": command not recognized" ++ nl)%string.
Proof.
  intros Hp Hr Hs Hsp Hl.
  assert (Hb : Console.run_body call shlex_split mk
               = Console.display [(c ++ ": command not recognized")%string]
                   (with_args args (prompted mk rest))).
  { rewrite (run_body_line call shlex_split mk line rest Hs).
    now apply process_unrecognized. }
  eexists. split; [exact (passes_snoc n _ mk _ Hp Hr Hb)|].
  unfold Console.display. rewrite display_world_printed. simpl.
  repeat split; [exact Hr|]. now rewrite !append_assoc.
Qed.

(** X14: a blank line is a no-op: processing a line without tokens
    changes nothing, and a pass of the loop over it only writes the prompt
    and takes the line. *)
Theorem blank_line_no_op (line : string) (m : Machine) :
  shlex_split line = Ret [] ->
  process' line m = (Ret tt, m)
  /\ forall rest, stdin (world m) = Line line :: rest ->
       Console.run_body call shlex_split m = (Ret tt, prompted m rest).
Proof.
  intros Hsp. split; [now apply process_blank|].
  intros rest Hs. rewrite (run_body_line call shlex_split m line rest Hs).
  now apply process_blank.
Qed.

(** X15: a line that [shlex.split] rejects with [ValueError] is not
    handled anywhere: the error comes out of [_process_command] with the
    machine untouched, out of [run], and out of [execute]. *)
Theorem split_error_propagates (line msg : string) :
  shlex_split line = Raise (ValueError msg) ->
  (forall m, process' line m = (Raise (ValueError msg), m))
  /\ (forall (n fuel : nat) (m mk : Machine) (rest : list stdin_event),
        passes call shlex_split n (run_enter m) mk ->
        _running (con (world mk)) = true ->
        stdin (world mk) = Line line :: rest ->
        Console.run call shlex_split (n + (1 + fuel)) m
        = Some (Raise (ValueError msg), prompted mk rest))
  /\ (forall (filename text : string) (pre post : list string) (m mk : Machine),
        files (world m) !! filename = Some text ->
        readlines text = pre ++ line :: post ->
        for_each process' pre (greeted m) = (Ret tt, mk) ->
        Console.execute call shlex_split filename m = (Raise (ValueError msg), mk)).
Proof.
  intros Hsp. split; [|split].
  - intros m. now apply process_split_error.
  - intros n fuel m mk rest Hp Hr Hs.
    unfold Console.run. rewrite run_enter_eq, (run_loop_passes call shlex_split n _ _ Hp).
    simpl. rewrite Hr, (run_body_line call shlex_split mk line rest Hs).
    now rewrite (process_split_error line _ _ Hsp).
  - intros filename text pre post m mk Hf Hrl Hp.
    rewrite (execute_from call shlex_split filename text pre (line :: post) m mk Hf Hrl Hp).
    unfold try_except. simpl for_each. unfold bind at 1.
    now rewrite (process_split_error line _ _ Hsp).
Qed.

(** X16: a [CommandBindingException] raised by a handler is treated like a
    failed dispatch: its message is displayed and the loop of [run] is
    back at its top, with the running flag as the handler left it. *)
Theorem run_handler_message_goes_on
        (n : nat) (m mk : Machine) (line : string) (rest : list stdin_event)
        (c : string) (args : list string) (h : hid) (msg : string) (w' : World) :
  passes call shlex_split n (run_enter m) mk ->
  _running (con (world mk)) = true ->
  stdin (world mk) = Line line :: rest ->
  shlex_split line = Ret (c :: args) ->
  Bindings.lookup c (the_bindings mk) = PyFun h ->
  call h args (world (with_args args (prompted mk rest)))
  = (Raise (CommandBindingException msg), w') ->
  passes call shlex_split (S n) (run_enter m)
    (mkMachine
       (mkWorld (con w') (stdout w' ++ msg ++ nl)%string (stdin w') (files w'))
       (invoked mk ++ [(h, args)])).
Proof.
  intros Hp Hr Hs Hsp Hl Hc.
  apply (passes_snoc n _ mk _ Hp Hr).
  rewrite (run_body_line call shlex_split mk line rest Hs).
  rewrite (process_dispatch call shlex_split line c args h (prompted mk rest)
             (Raise (CommandBindingException msg)) w' Hsp Hl Hc).
  unfold Console.display. rewrite display_world_printed. simpl.
  now rewrite append_nil_r.
Qed.

(** X17: with a default handler set through the console, a line whose
    first word is not registered is served by that handler, called with
    the remaining words; nothing is reported as not recognized, and the
    value the handler returns is dropped. *)
Theorem default_serves_unknown
        (line c : string) (args : list string) (d : hid) (v : pyval)
        (m : Machine) (w' : World) :
  let m' := snd (modify_con (fun s => snd (Console.default (PyFun d) s)) m) in
  _commands (the_bindings m) !! c = None ->
  shlex_split line = Ret (c :: args) ->
  call d args (world (with_args args m')) = (Ret v, w') ->
  process' line m' = (Ret tt, mkMachine w' (invoked m ++ [(d, args)])).
Proof.
  intros m' Hk Hsp Hc.
  assert (Hl : Bindings.lookup c (the_bindings m') = PyFun d).
  { unfold Bindings.lookup, the_bindings in *. simpl. now rewrite Hk. }
  now rewrite (process_dispatch call shlex_split line c args d m' (Ret v) w' Hsp Hl Hc).
Qed.

(** ** The script mode *)

(** X18: a script file that cannot be opened is reported, not raised:
    [execute] shows the greeting, writes the message and returns; the
    console object and the log of calls are untouched. *)
Theorem execute_missing_file (filename : string) (m : Machine) :
  files (world m) !! filename = None ->
  Console.execute call shlex_split filename m
  = (Ret tt,
     mkMachine
       (mkWorld (con (world m))
          (stdout (world (greeted m))
           ++ "An error occurred while opening script file" ++ nl)%string
          (stdin (world m)) (files (world m)))
       (invoked m))
  /\ stdout (world (greeted m))
     = (stdout (world m)
        ++ match _greeting (con (world m)) with
           | EmptyString => ""
           | greeting => greeting ++ nl
           end)%string.
Proof.
  intros Hf.
  assert (Hg : greeted m
               = mkMachine
                   (mkWorld (con (world m))
                      (stdout (world m)
                       ++ match _greeting (con (world m)) with
                          | EmptyString => ""
                          | greeting => greeting ++ nl
                          end)%string
                      (stdin (world m)) (files (world m)))
                   (invoked m)).
  { unfold greeted, Console.show_greeting.
    destruct (_greeting (con (world m))) eqn:E.
    - simpl. rewrite append_nil_r. now destruct m as [[] ?].
    - unfold Console.display. rewrite display_world_printed. simpl.
      now rewrite append_nil_r. }
  split; [|now rewrite Hg].
  unfold Console.execute, bind at 1. rewrite (show_greeting_eq m).
  unfold try_except, bind, liftW, open_read.
  assert (Hf' : files (world (greeted m)) !! filename = None)
    by (rewrite Hg; exact Hf).
  rewrite Hf'. simpl.
  unfold Console.display. rewrite display_world_printed. simpl.
  rewrite Hg. simpl. now rewrite append_nil_r.
Qed.

(** X19: a [KeyboardInterrupt] raised while a handler runs a script line
    ends [execute] without an error: ["Terminating..."] is written after
    what the handler left, and the lines after that one are not
    processed. *)
Theorem execute_interrupted
        (filename text : string) (pre : list string) (line : string)
        (post : list string) (m mk : Machine)
        (c : string) (args : list string) (h : hid) (w' : World) :
  files (world m) !! filename = Some text ->
  readlines text = pre ++ line :: post ->
  for_each process' pre (greeted m) = (Ret tt, mk) ->
  shlex_split line = Ret (c :: args) ->
  Bindings.lookup c (the_bindings mk) = PyFun h ->
  call h args (world (with_args args mk)) = (Raise KeyboardInterrupt, w') ->
  Console.execute call shlex_split filename m
  = (Ret tt,
     mkMachine
       (mkWorld (con w') (stdout w' ++ "Terminating..." ++ nl)%string
                (stdin w') (files w'))
       (invoked mk ++ [(h, args)])).
Proof.
  intros Hf Hrl Hp Hsp Hl Hc.
  rewrite (execute_from call shlex_split filename text pre (line :: post) m mk Hf Hrl Hp).
  unfold try_except. simpl for_each. unfold bind at 1.
  rewrite (process_dispatch call shlex_split line c args h mk
             (Raise KeyboardInterrupt) w' Hsp Hl Hc).
  simpl. unfold Console.display. rewrite display_world_printed. simpl.
  now rewrite append_nil_r.
Qed.

(** X20: an [OSError] raised by a handler while [execute] runs a script
    line is taken by the clause for the opening of the file: [execute]
    writes that message after what the handler left and returns, and the
    lines after that one are not processed. *)
Theorem execute_handler_OSError
        (filename text : string) (pre : list string) (line : string)
        (post : list string) (m mk : Machine)
        (c : string) (args : list string) (h : hid) (msg : string) (w' : World) :
  files (world m) !! filename = Some text ->
  readlines text = pre ++ line :: post ->
  for_each process' pre (greeted m) = (Ret tt, mk) ->
  shlex_split line = Ret (c :: args) ->
  Bindings.lookup c (the_bindings mk) = PyFun h ->
  call h args (world (with_args args mk)) = (Raise (OSError msg), w') ->
  Console.execute call shlex_split filename m
  = (Ret tt,
     mkMachine
       (mkWorld (con w')
          (stdout w' ++ "An error occurred while opening script file" ++ nl)%string
          (stdin w') (files w'))
       (invoked mk ++ [(h, args)])).
Proof.
  intros Hf Hrl Hp Hsp Hl Hc.
  rewrite (execute_from call shlex_split filename text pre (line :: post) m mk Hf Hrl Hp).
  unfold try_except. simpl for_each. unfold bind at 1.
  rewrite (process_dispatch call shlex_split line c args h mk
             (Raise (OSError msg)) w' Hsp Hl Hc).
  simpl. unfold Console.display. rewrite display_world_printed. simpl.
  now rewrite append_nil_r.
Qed.

Lemma for_each_blank (lines : list string) (m : Machine) :
  (forall line, line ∈ lines -> shlex_split line = Ret []) ->
  for_each process' lines m = (Ret tt, m).
Proof.
  induction lines as [|l lines IH]; intros Hb; [reflexivity|].
  simpl. unfold bind. rewrite (process_blank l m).
  - apply IH. intros line Hin. apply Hb. now right.
  - apply Hb. now left.
Qed.

(** X21: a script without commands (an empty file, or blank lines only)
    makes [execute] show the greeting and nothing else. *)
Theorem execute_blank_script (filename text : string) (m : Machine) :
  files (world m) !! filename = Some text ->
  (forall line, line ∈ readlines text -> shlex_split line = Ret []) ->
  Console.execute call shlex_split filename m = (Ret tt, greeted m).
Proof.
  intros Hf Hb.
  rewrite (execute_from call shlex_split filename text (readlines text) [] m (greeted m) Hf).
  - reflexivity.
  - now rewrite app_nil_r.
  - now apply for_each_blank.
Qed.
End MoreLoops.

(** ** The greeting file *)

(** X22: [useGreeting] on a readable file makes its text the greeting and
    changes nothing else, and the greeting is then shown by [run] and
    [execute] unless the text is empty; on a file that cannot be opened
    the [OSError] comes out and the machine is untouched. *)
Theorem useGreeting_file (filename : string) (m : Machine) :
  (forall text, files (world m) !! filename = Some text ->
     Console.useGreeting filename m
     = (Ret tt,
        set_world (set_con (Console.setGreeting text (con (world m))) (world m)) m)
     /\ stdout (world (snd ((Console.useGreeting filename >> Console.show_greeting) m)))
        = (stdout (world m)
           ++ match text with EmptyString => "" | _ => text ++ nl end)%string)
  /\ (files (world m) !! filename = None ->
      exists msg, Console.useGreeting filename m = (Raise (OSError msg), m)).
Proof.
  split.
  - intros text Hf.
    assert (Hu : Console.useGreeting filename m
                 = (Ret tt,
                    set_world (set_con (Console.setGreeting text (con (world m)))
                                 (world m)) m)).
    { unfold Console.useGreeting, bind, liftW, open_read. rewrite Hf. simpl.
      now destruct m as [[] ?]. }
    split; [exact Hu|].
    unfold bind at 1. rewrite Hu. unfold Console.show_greeting. simpl.
    destruct text as [|x text].
    + simpl. now rewrite append_nil_r.
    + unfold Console.display. rewrite display_world_printed. simpl.
      now rewrite append_nil_r.
  - intros Hf. eexists.
    unfold Console.useGreeting, bind, liftW, open_read. rewrite Hf. simpl.
    now destruct m as [[] ?].
Qed.

(** ** The example *)

(** X23: in the example console the name typed after ["ask"] is the one
    the later commands use: [run] on the input ["ask"], a name,
    ["greet"], ["q"] greets and takes leave by that name (or without a
    name when the line typed was empty), stores it in the attached object
    and returns, leaving the rest of the input unread. *)
Theorem hello_ask_greet (name script : string) (rest : list stdin_event) :
  let m := Hello.start script
             (Line "ask" :: Line name :: Line "greet" :: Line "q" :: rest) in
  let said :=
    match name with
    | EmptyString => ("Hello there!" ++ nl ++ nl ++ "> " ++ "Goodbye!" ++ nl)%string
    | _ => ("Hello, " ++ name ++ "!" ++ nl ++ nl ++ "> "
            ++ "Goodbye, " ++ name ++ "!" ++ nl)%string
    end in
  exists m',
    Console.run Hello.call Hello.split 4 m = Some (Ret tt, m')
    /\ stdin (world m') = rest
    /\ Console.getObject "name" PyNone (con (world m')) = PyName name
    /\ invoked m' = [(Hello.askName, []); (Hello.sayHello, []); (Hello.stop, [])]
    /\ stdout (world m')
       = ("Welcome" ++ nl ++ nl ++ nl ++ "> " ++ "What is your name?" ++ nl
          ++ nl ++ "> " ++ said)%string.
Proof.
  intros m said. subst m said.
  destruct name as [|x name]; eexists; (split; [vm_compute; reflexivity|]).
  - repeat split; vm_compute; reflexivity.
  - repeat split; vm_compute; try reflexivity.
    change (fix Ffix (x0 x1 : string) {struct x0} : string :=
              match x0 with
              | EmptyString => x1
              | String H H0 => String H (Ffix H0 x1)
              end) with String.append.
    rewrite !append_assoc. vm_compute. reflexivity.
Qed.

(** * The example console at work *)

(** The scenario of the hello example: ["greet Bob"] stores one argument. *)
Example greet_Bob_args :
  let b := the_bindings
             (snd (Bindings.execute Hello.call ["greet"; "Bob"] (Hello.start "" []))) in
  _args b = ["Bob"] /\ Bindings.argc b = 1%Z
  /\ Bindings.getArg 0 (PyStr "") b = Ret (PyStr "Bob")
  /\ Bindings.getArg 5 (PyStr "fallback") b = Ret (PyStr "fallback").
Proof. vm_compute. repeat split. Qed.

(** An unquoted line is split at its blanks. *)
Example ask_John_Doe :
  Hello.split "ask John Doe" = Ret ["ask"; "John"; "Doe"].
Proof. reflexivity. Qed.

Lemma execute_unrecognized_witness :
  _commands (the_bindings (Hello.start "" [])) !! "x" = None
  /\ _default (the_bindings (Hello.start "" [])) = PyNone
  /\ Bindings.execute Hello.call ["x"; "a"] (Hello.start "" [])
     = (Raise (CommandBindingException "x: command not recognized"),
        with_args ["a"] (Hello.start "" []))
  /\ invoked (snd (Bindings.execute Hello.call ["x"; "a"] (Hello.start "" [])))
     = invoked (Hello.start "" []).
Proof.
  assert (H1 : _commands (the_bindings (Hello.start "" [])) !! "x" = None)
    by (vm_compute; reflexivity).
  assert (H2 : _default (the_bindings (Hello.start "" [])) = PyNone)
    by (vm_compute; reflexivity).
  split; [exact H1|]. split; [exact H2|].
  exact (execute_unrecognized Hello.call "x" ["a"] (Hello.start "" []) H1 H2).
Defined.

Lemma execute_overwrites_args_witness :
  (let (r, m') := Bindings.execute Hello.call ["nope"; "a"; "b"] (Hello.start "" []) in
   r = Raise (CommandBindingException "nope: command not recognized")
   /\ _args (the_bindings m') = ["a"; "b"]
   /\ Bindings.argc (the_bindings m') = 2%Z)
  /\ exists m1,
      _args (the_bindings m1) = ["Bob"]
      /\ Bindings.execute Hello.call ["greet"; "Bob"] (Hello.start "" [])
         = Bindings.invoke Hello.call Hello.sayHello m1.
Proof.
  destruct (execute_overwrites_args Hello.call "nope" ["a"; "b"] (Hello.start "" []))
    as [H1 _].
  destruct (execute_overwrites_args Hello.call "greet" ["Bob"] (Hello.start "" []))
    as [_ H2].
  split.
  - apply H1. vm_compute. reflexivity.
  - apply (H2 Hello.sayHello). vm_compute. reflexivity.
Defined.

Lemma execute_default_witness :
  _commands (the_bindings (Hello.start_default "" [])) !! "x" = None
  /\ _default (the_bindings (Hello.start_default "" [])) = PyFun Hello.listCommands
  /\ invoked (snd (Bindings.execute Hello.call ["x"] (Hello.start_default "" [])))
     = [(Hello.listCommands, [])].
Proof.
  assert (H1 : _commands (the_bindings (Hello.start_default "" [])) !! "x" = None)
    by (vm_compute; reflexivity).
  assert (H2 : _default (the_bindings (Hello.start_default "" [])) = PyFun Hello.listCommands)
    by (vm_compute; reflexivity).
  split; [exact H1|]. split; [exact H2|].
  rewrite (execute_default Hello.call "x" [] Hello.listCommands
             (Hello.start_default "" []) H1 H2).
  reflexivity.
Defined.

Lemma execute_not_callable_witness :
  Bindings.execute Hello.call ["nope"; "a"] (Hello.start "" [])
  = (Raise (CommandBindingException "nope: command not recognized"),
     with_args ["a"] (Hello.start "" []))
  /\ Bindings.contains "greet"
       (the_bindings (after_add "greet" (PyStr "hi") (Hello.start "" []))) = true
  /\ Bindings.execute Hello.call ["greet"] (after_add "greet" (PyStr "hi") (Hello.start "" []))
     = (Raise (CommandBindingException "greet: command not recognized"),
        with_args [] (after_add "greet" (PyStr "hi") (Hello.start "" []))).
Proof.
  destruct (execute_not_callable Hello.call "nope" ["a"]) as [H1 _].
  destruct (execute_not_callable Hello.call "greet" []) as [_ H2].
  split.
  - apply H1. vm_compute. reflexivity.
  - destruct (H2 (Hello.start "" []) (PyStr "hi") eq_refl) as (Hc & He & _).
    split; [exact Hc | exact He].
Defined.

(** C3 as it is stated fails: with the single stored argument ["Bob"], the
    index [-1] is outside [0 <= index < argc] and yet [getArg] returns
    ["Bob"], not the fallback. *)
Lemma getArg_negative_index_counterexample :
  ~ (forall (index : Z) (default : pyval) (self : BindingsState),
        ~ (0 <= index < Bindings.argc self)%Z ->
        Bindings.getArg index default self = Ret default).
Proof.
  intros H.
  specialize (H (-1)%Z (PyStr "fallback")
                (the_bindings
                   (snd (Bindings.execute Hello.call ["greet"; "Bob"] (Hello.start "" []))))).
  assert (Hout : ~ (0 <= -1 < Bindings.argc
                      (the_bindings
                         (snd (Bindings.execute Hello.call ["greet"; "Bob"]
                                 (Hello.start "" [])))))%Z) by lia.
  specialize (H Hout). vm_compute in H. discriminate H.
Qed.

Lemma getArg_by_index_witness :
  let b := the_bindings
             (snd (Bindings.execute Hello.call ["greet"; "Bob"] (Hello.start "" []))) in
  Bindings.getArg 0 (PyStr "fallback") b = Ret (PyStr "Bob")
  /\ Bindings.getArg 5 (PyStr "fallback") b = Ret (PyStr "fallback")
  /\ Bindings.getArg (-1) (PyStr "fallback") b = Ret (PyStr "Bob").
Proof.
  intros b.
  assert (Hargc : Bindings.argc b = 1%Z) by (vm_compute; reflexivity).
  destruct (getArg_by_index 0 (PyStr "fallback") b) as (H0 & _ & _).
  destruct (getArg_by_index 5 (PyStr "fallback") b) as (_ & H5 & _).
  destruct (getArg_by_index (-1) (PyStr "fallback") b) as (_ & _ & Hm).
  split; [|split].
  - destruct H0 as (s & Hs & Hg); [rewrite Hargc; lia|].
    vm_compute in Hs. injection Hs as <-. exact Hg.
  - apply H5. rewrite Hargc. lia.
  - destruct Hm as (s & Hs & Hg); [rewrite Hargc; lia|].
    vm_compute in Hs. injection Hs as <-. exact Hg.
Defined.

(** A script whose first line stops the console and whose second line
    greets: both lines are processed. *)
Lemma execute_processes_every_line_witness :
  let script := ("q" ++ nl ++ "greet" ++ nl)%string in
  let m := Hello.start script [] in
  let mk := snd (Console._process_command Hello.call Hello.split ("q" ++ nl)%string
                   (greeted m)) in
  _running (con (world mk)) = false
  /\ Console.execute Hello.call Hello.split "script.txt" m
     = try_except
         (Console._process_command Hello.call Hello.split ("greet" ++ nl)%string
          >> for_each (Console._process_command Hello.call Hello.split) [])
         Console.execute_except mk
  /\ Console.execute Hello.call Hello.split "script.txt" m
     = (Ret tt,
        snd (for_each (Console._process_command Hello.call Hello.split)
               (readlines script) (greeted m)))
  /\ invoked (snd (Console.execute Hello.call Hello.split "script.txt" m))
     = [(Hello.stop, []); (Hello.sayHello, [])].
Proof.
  intros script m mk.
  assert (Hf : files (world m) !! "script.txt" = Some script)
    by (vm_compute; reflexivity).
  destruct (execute_processes_every_line Hello.call Hello.split "script.txt" script m Hf)
    as [Hnext Hall].
  split; [vm_compute; reflexivity|].
  split; [|split; [|vm_compute; reflexivity]].
  - apply (Hnext [("q" ++ nl)%string] ("greet" ++ nl)%string [] mk).
    + vm_compute. reflexivity.
    + vm_compute. reflexivity.
  - apply Hall. vm_compute. reflexivity.
Defined.

(** The terminal delivers ["greet"], ["q"] and one more line: [run]
    returns after ["q"], and the last line is still pending. *)
Lemma run_stops_after_stop_witness :
  let m := Hello.start "" [Line "greet"; Line "q"; Line "never read"] in
  option_map fst (Console.run Hello.call Hello.split 3 m) = Some (Ret tt)
  /\ option_map (fun r => stdin (world (snd r))) (Console.run Hello.call Hello.split 3 m)
     = Some [Line "never read"]
  /\ option_map (fun r => invoked (snd r)) (Console.run Hello.call Hello.split 3 m)
     = Some [(Hello.sayHello, []); (Hello.stop, [])].
Proof.
  intros m.
  pose (mk := snd (Console.run_body Hello.call Hello.split (run_enter m))).
  pose (w' := snd (Hello.call Hello.stop []
                     (world (with_args [] (prompted mk [Line "never read"]))))).
  assert (Hp : passes Hello.call Hello.split 1 (run_enter m) mk).
  { apply (passes_S Hello.call Hello.split 0 (run_enter m) mk mk).
    - vm_compute. reflexivity.
    - vm_compute. reflexivity.
    - apply passes_O. }
  assert (Hrun : Console.run Hello.call Hello.split (1 + (2 + 0)) m
                 = Some (Ret tt, mkMachine w' (invoked mk ++ [(Hello.stop, [])]))).
  { apply (run_stops_after_stop Hello.call Hello.split 1 0 m mk "q"
             [Line "never read"] "q" [] Hello.stop PyNone w' Hp).
    - vm_compute. reflexivity.
    - vm_compute. reflexivity.
    - vm_compute. reflexivity.
    - vm_compute. reflexivity.
    - vm_compute. reflexivity.
    - vm_compute. reflexivity. }
  change (1 + (2 + 0)) with 3 in Hrun. rewrite Hrun.
  split; [reflexivity|]. split; vm_compute; reflexivity.
Defined.

(** C4 as it is stated fails: a handler that raises
    [CommandBindingException] has its error taken and displayed by the
    console, which goes on with the next line, and one that raises
    [KeyboardInterrupt] makes [run] and [execute] return with their closing
    message; in neither case does the error reach the caller. *)
Lemma handler_error_caught_counterexample :
  let cbe := CommandBindingException "boom" in
  let m := Hello.start_boom "boom" [Line "boom"; Line "q"] in
  _commands (the_bindings m) !! "boom" = Some (PyFun Hello.boom)
  /\ (forall e args w, Hello.call_raising e Hello.boom args w = (Raise e, w))
  /\ option_map fst (Console.run (Hello.call_raising cbe) Hello.split 3 m) = Some (Ret tt)
  /\ option_map (fun r => invoked (snd r))
       (Console.run (Hello.call_raising cbe) Hello.split 3 m)
     = Some [(Hello.boom, []); (Hello.stop, [])]
  /\ fst (Console.execute (Hello.call_raising cbe) Hello.split "script.txt" m) = Ret tt
  /\ option_map fst (Console.run (Hello.call_raising KeyboardInterrupt) Hello.split 3 m)
     = Some (Ret tt)
  /\ fst (Console.execute (Hello.call_raising KeyboardInterrupt) Hello.split "script.txt" m)
     = Ret tt.
Proof.
  intros cbe m. split; [vm_compute; reflexivity|].
  split; [intros e args w; reflexivity|].
  repeat split; vm_compute; reflexivity.
Qed.

Lemma handler_error_propagates_witness :
  let e := Exception "RuntimeError" "boom" in
  let m := Hello.start_boom ("greet" ++ nl ++ "boom x")%string
             [Line "greet"; Line "boom x"; Line "q"] in
  option_map fst (Console.run (Hello.call_raising e) Hello.split 2 m) = Some (Raise e)
  /\ fst (Console.execute (Hello.call_raising e) Hello.split "script.txt" m) = Raise e.
Proof.
  intros e m.
  pose (call := Hello.call_raising e).
  pose (mk := snd (Console.run_body call Hello.split (run_enter m))).
  pose (mk' := snd (Console._process_command call Hello.split ("greet" ++ nl)%string
                      (greeted m))).
  pose (w1 := world (with_args ["x"] (prompted mk [Line "q"]))).
  pose (w2 := world (with_args ["x"] mk')).
  destruct (handler_error_propagates call Hello.split e Hello.boom
              (snd (call Hello.boom ["x"] w1)) eq_refl eq_refl) as [Hrun _].
  destruct (handler_error_propagates call Hello.split e Hello.boom
              (snd (call Hello.boom ["x"] w2)) eq_refl eq_refl) as [_ Hexe].
  assert (Hr : Console.run call Hello.split (1 + (1 + 0)) m
               = Some (Raise e, mkMachine (snd (call Hello.boom ["x"] w1))
                                  (invoked mk ++ [(Hello.boom, ["x"])]))).
  { apply (Hrun 1 0 m mk "boom x" [Line "q"] "boom" ["x"]).
    - apply (passes_S call Hello.split 0 (run_enter m) mk mk).
      + vm_compute. reflexivity.
      + vm_compute. reflexivity.
      + apply passes_O.
    - vm_compute. reflexivity.
    - vm_compute. reflexivity.
    - vm_compute. reflexivity.
    - vm_compute. reflexivity.
    - reflexivity. }
  assert (He : Console.execute call Hello.split "script.txt" m
               = (Raise e, mkMachine (snd (call Hello.boom ["x"] w2))
                             (invoked mk' ++ [(Hello.boom, ["x"])]))).
  { apply (Hexe "script.txt" ("greet" ++ nl ++ "boom x")%string
             [("greet" ++ nl)%string] "boom x" [] m mk' "boom" ["x"]).
    - reflexivity.
    - vm_compute. reflexivity.
    - vm_compute. reflexivity.
    - vm_compute. reflexivity.
    - vm_compute. reflexivity.
    - vm_compute. reflexivity.
    - reflexivity. }
  split.
  - change 2 with (1 + (1 + 0)). fold call. rewrite Hr. reflexivity.
  - fold call. rewrite He. reflexivity.
Defined.

(** An [OSError] raised by a handler while [execute] runs a script is
    taken by the clause meant for the opening of the file: [execute]
    reports it as such and returns, leaving the rest of the script
    unprocessed. *)
Example execute_takes_handler_OSError :
  let e := OSError "No such file or directory: data.txt" in
  let m := Hello.start_boom ("boom" ++ nl ++ "greet" ++ nl)%string [] in
  let r := Console.execute (Hello.call_raising e) Hello.split "script.txt" m in
  fst r = Ret tt
  /\ invoked (snd r) = [(Hello.boom, [])]
  /\ stdout (world (snd r))
     = ("Welcome" ++ nl ++ nl ++ "An error occurred while opening script file" ++ nl)%string.
Proof. vm_compute. repeat split. Qed.

(** * The further properties on the example *)

Lemma add_asList_witness :
  let b := the_bindings (Hello.start "" []) in
  Bindings.asList (snd (Bindings.add "greet" (PyFun Hello.listCommands) b))
  = Bindings.asList b
  /\ Bindings.asList (snd (Bindings.add "zap" (PyFun Hello.listCommands) b))
     ≡ₚ "zap" :: Bindings.asList b.
Proof.
  intros b.
  destruct (add_asList "greet" (PyFun Hello.listCommands) b) as (_ & Hold & _).
  destruct (add_asList "zap" (PyFun Hello.listCommands) b) as (_ & _ & Hnew).
  split.
  - apply Hold. vm_compute. reflexivity.
  - apply Hnew. vm_compute. reflexivity.
Defined.

Lemma add_add_witness :
  snd (Bindings.add "a" (PyFun 1) (snd (Bindings.add "b" (PyFun 2) Bindings.init)))
  = snd (Bindings.add "b" (PyFun 2) (snd (Bindings.add "a" (PyFun 1) Bindings.init))).
Proof.
  apply (proj1 (add_add "a" "b" (PyFun 1) (PyFun 2) Bindings.init)).
  discriminate.
Defined.

Lemma registered_beats_default_witness :
  let m := Hello.start "" [] in
  invoked (snd (Bindings.execute Hello.call ["greet"; "Bob"]
                  (after_setDefault (PyFun Hello.listCommands) m)))
  = [(Hello.sayHello, ["Bob"])].
Proof.
  intros m.
  destruct (registered_beats_default Hello.call "greet" ["Bob"] Hello.sayHello
              (PyFun Hello.listCommands) m) as (_ & _ & Hlog).
  - vm_compute. reflexivity.
  - rewrite Hlog. reflexivity.
Defined.

Lemma handler_reads_args_witness :
  let w := world (with_args ["Bob"; "Lee"] (Hello.start "" [])) in
  Console.argc (con w) = 2%Z
  /\ Console.getArg 1 PyNone (con w) = Ret (PyStr "Lee")
  /\ Console.getArg 2 PyNone (con w) = Ret PyNone.
Proof.
  intros w.
  destruct (handler_reads_args Hello.call "greet" ["Bob"; "Lee"] Hello.sayHello
              (Hello.start "" [])) as (_ & Hargc & Hget & Hpast).
  - vm_compute. reflexivity.
  - split; [exact Hargc|]. split.
    + apply (Hget 1%nat "Lee" PyNone). reflexivity.
    + apply (Hpast 2%Z PyNone). simpl. lia.
Defined.

Lemma attach_getObject_witness :
  let self := Console.init ">" "" in
  Console.getObject "other" PyNone (Console.attach "name" (PyName "Ann") self)
  = Console.getObject "other" PyNone self
  /\ Console.getObject "name" (PyInt 0) self = PyInt 0.
Proof.
  intros self.
  destruct (attach_getObject "name" (PyName "Ann") self) as (_ & Hother & Hnone & _).
  split.
  - apply Hother. discriminate.
  - apply Hnone. vm_compute. reflexivity.
Defined.

Lemma run_interrupt_at_prompt_witness :
  let m := Hello.start "" [Line "greet"; Interrupt; Line "q"] in
  option_map fst (Console.run Hello.call Hello.split 2 m) = Some (Ret tt)
  /\ option_map (fun r => stdin (world (snd r))) (Console.run Hello.call Hello.split 2 m)
     = Some [Line "q"].
Proof.
  intros m.
  pose (mk := snd (Console.run_body Hello.call Hello.split (run_enter m))).
  assert (Hp : passes Hello.call Hello.split 1 (run_enter m) mk).
  { apply (passes_S Hello.call Hello.split 0 (run_enter m) mk mk).
    - vm_compute. reflexivity.
    - vm_compute. reflexivity.
    - apply passes_O. }
  assert (Hrun := run_interrupt_at_prompt Hello.call Hello.split 1 0 m mk [Line "q"] Hp).
  change (1 + (1 + 0)) with 2 in Hrun. rewrite Hrun.
  - split; reflexivity.
  - vm_compute. reflexivity.
  - vm_compute. reflexivity.
Defined.

Lemma run_eof_at_prompt_witness :
  let m := Hello.start "" [Line "greet"] in
  option_map fst (Console.run Hello.call Hello.split 2 m) = Some (Raise EOFError).
Proof.
  intros m.
  pose (mk := snd (Console.run_body Hello.call Hello.split (run_enter m))).
  assert (Hp : passes Hello.call Hello.split 1 (run_enter m) mk).
  { apply (passes_S Hello.call Hello.split 0 (run_enter m) mk mk).
    - vm_compute. reflexivity.
    - vm_compute. reflexivity.
    - apply passes_O. }
  assert (Hrun := run_eof_at_prompt Hello.call Hello.split 1 0 m mk Hp).
  change (1 + (1 + 0)) with 2 in Hrun. rewrite Hrun.
  - reflexivity.
  - vm_compute. reflexivity.
  - vm_compute. reflexivity.
Defined.

Lemma run_unrecognized_goes_on_witness :
  let m := Hello.start "" [Line "zzz 1"; Line "q"] in
  exists m',
    passes Hello.call Hello.split 1 (run_enter m) m'
    /\ _running (con (world m')) = true
    /\ invoked m' = []
    /\ stdin (world m') = [Line "q"].
Proof.
  intros m.
  destruct (run_unrecognized_goes_on Hello.call Hello.split 0 m (run_enter m)
              "zzz 1" [Line "q"] "zzz" ["1"])
    as (m' & Hp & Hr & Hlog & Hin & _).
  - apply passes_O.
  - vm_compute. reflexivity.
  - vm_compute. reflexivity.
  - vm_compute. reflexivity.
  - vm_compute. reflexivity.
  - exists m'. split; [exact Hp|]. split; [exact Hr|]. split; [exact Hlog | exact Hin].
Defined.

Lemma blank_line_no_op_witness :
  let m := run_enter (Hello.start "" [Line "   "; Line "q"]) in
  Console._process_command Hello.call Hello.split "   " m = (Ret tt, m)
  /\ Console.run_body Hello.call Hello.split m = (Ret tt, prompted m [Line "q"]).
Proof.
  intros m.
  destruct (blank_line_no_op Hello.call Hello.split "   " m) as [Hproc Hbody].
  - reflexivity.
  - split; [exact Hproc|]. apply Hbody. vm_compute. reflexivity.
Defined.

Lemma split_error_propagates_witness :
  let line := String (ascii_of_nat 34) "greet" in
  let m := Hello.start line [Line line; Line "q"] in
  Console.run Hello.call split_quoted 1 m
  = Some (Raise (ValueError "No closing quotation"), prompted (run_enter m) [Line "q"])
  /\ Console.execute Hello.call split_quoted "script.txt" m
     = (Raise (ValueError "No closing quotation"), greeted m).
Proof.
  intros line m.
  destruct (split_error_propagates Hello.call split_quoted line "No closing quotation")
    as (_ & Hrun & Hexe).
  - reflexivity.
  - split.
    + apply (Hrun 0 0 m (run_enter m) [Line "q"]).
      * apply passes_O.
      * vm_compute. reflexivity.
      * vm_compute. reflexivity.
    + apply (Hexe "script.txt" line [] [] m (greeted m)).
      * vm_compute. reflexivity.
      * vm_compute. reflexivity.
      * reflexivity.
Defined.

Lemma run_handler_message_goes_on_witness :
  let e := CommandBindingException "bad" in
  let m := Hello.start_boom "" [Line "boom"; Line "q"] in
  exists m',
    passes (Hello.call_raising e) Hello.split 1 (run_enter m) m'
    /\ invoked m' = [(Hello.boom, [])]
    /\ stdin (world m') = [Line "q"].
Proof.
  intros e m.
  pose (w' := world (with_args [] (prompted (run_enter m) [Line "q"]))).
  eexists. split.
  - apply (run_handler_message_goes_on (Hello.call_raising e) Hello.split 0 m
             (run_enter m) "boom" [Line "q"] "boom" [] Hello.boom "bad" w').
    + apply passes_O.
    + vm_compute. reflexivity.
    + vm_compute. reflexivity.
    + vm_compute. reflexivity.
    + vm_compute. reflexivity.
    + reflexivity.
  - split; vm_compute; reflexivity.
Defined.

Lemma default_serves_unknown_witness :
  let m := Hello.start "" [] in
  let m' := snd (modify_con (fun s => snd (Console.default (PyFun Hello.listCommands) s)) m) in
  fst (Console._process_command Hello.call Hello.split "what now" m') = Ret tt
  /\ invoked (snd (Console._process_command Hello.call Hello.split "what now" m'))
     = [(Hello.listCommands, ["now"])].
Proof.
  intros m m'.
  pose (w' := snd (Hello.call Hello.listCommands ["now"] (world (with_args ["now"] m')))).
  subst m'.
  rewrite (default_serves_unknown Hello.call Hello.split "what now" "what" ["now"]
             Hello.listCommands PyNone m w').
  - split; reflexivity.
  - vm_compute. reflexivity.
  - vm_compute. reflexivity.
  - reflexivity.
Defined.

Lemma execute_missing_file_witness :
  let m := Hello.start "" [] in
  fst (Console.execute Hello.call Hello.split "nope.txt" m) = Ret tt
  /\ stdout (world (snd (Console.execute Hello.call Hello.split "nope.txt" m)))
     = ("Welcome" ++ nl ++ nl ++ "An error occurred while opening script file" ++ nl)%string.
Proof.
  intros m.
  destruct (execute_missing_file Hello.call Hello.split "nope.txt" m) as [Hexe Hout].
  - vm_compute. reflexivity.
  - rewrite Hexe. split; [reflexivity|]. vm_compute. reflexivity.
Defined.

Lemma execute_interrupted_witness :
  let script := ("greet" ++ nl ++ "boom" ++ nl ++ "q" ++ nl)%string in
  let m := Hello.start_boom script [] in
  let r := Console.execute (Hello.call_raising KeyboardInterrupt) Hello.split "script.txt" m in
  fst r = Ret tt /\ invoked (snd r) = [(Hello.sayHello, []); (Hello.boom, [])].
Proof.
  intros script m r. subst r.
  set (call := Hello.call_raising KeyboardInterrupt).
  pose (mk := snd (Console._process_command call Hello.split ("greet" ++ nl)%string
                     (greeted m))).
  rewrite (execute_interrupted call Hello.split "script.txt" script
             [("greet" ++ nl)%string] ("boom" ++ nl)%string [("q" ++ nl)%string]
             m mk "boom" [] Hello.boom (world (with_args [] mk))).
  - split; vm_compute; reflexivity.
  - vm_compute. reflexivity.
  - vm_compute. reflexivity.
  - vm_compute. reflexivity.
  - vm_compute. reflexivity.
  - vm_compute. reflexivity.
  - reflexivity.
Defined.

Lemma execute_handler_OSError_witness :
  let script := ("greet" ++ nl ++ "boom" ++ nl ++ "q" ++ nl)%string in
  let m := Hello.start_boom script [] in
  let r := Console.execute (Hello.call_raising (OSError "disk")) Hello.split "script.txt" m in
  fst r = Ret tt /\ invoked (snd r) = [(Hello.sayHello, []); (Hello.boom, [])].
Proof.
  intros script m r. subst r.
  set (call := Hello.call_raising (OSError "disk")).
  pose (mk := snd (Console._process_command call Hello.split ("greet" ++ nl)%string
                     (greeted m))).
  rewrite (execute_handler_OSError call Hello.split "script.txt" script
             [("greet" ++ nl)%string] ("boom" ++ nl)%string [("q" ++ nl)%string]
             m mk "boom" [] Hello.boom "disk" (world (with_args [] mk))).
  - split; vm_compute; reflexivity.
  - vm_compute. reflexivity.
  - vm_compute. reflexivity.
  - vm_compute. reflexivity.
  - vm_compute. reflexivity.
  - vm_compute. reflexivity.
  - reflexivity.
Defined.

Lemma execute_blank_script_witness :
  let script := (nl ++ "  " ++ nl)%string in
  let m := Hello.start script [] in
  Console.execute Hello.call Hello.split "script.txt" m = (Ret tt, greeted m).
Proof.
  intros script m.
  apply (execute_blank_script Hello.call Hello.split "script.txt" script m).
  - vm_compute. reflexivity.
  - assert (Hr : readlines script = [nl; ("  " ++ nl)%string])
      by (vm_compute; reflexivity).
    rewrite Hr. intros line Hin.
    apply elem_of_cons in Hin as [->|Hin]; [reflexivity|].
    apply elem_of_cons in Hin as [->|Hin]; [reflexivity|].
    inversion Hin.
Defined.

Lemma useGreeting_file_witness :
  let m := Hello.boot "" [] in
  stdout (world (snd ((Console.useGreeting "./greeting.txt" >> Console.show_greeting) m)))
  = ("Welcome" ++ nl ++ nl)%string
  /\ exists msg, Console.useGreeting "none.txt" m = (Raise (OSError msg), m).
Proof.
  intros m.
  destruct (useGreeting_file "./greeting.txt" m) as [Hsome _].
  destruct (useGreeting_file "none.txt" m) as [_ Hnone].
  split.
  - destruct (Hsome ("Welcome" ++ nl)%string) as [_ Hout].
    + vm_compute. reflexivity.
    + rewrite Hout. vm_compute. reflexivity.
  - apply Hnone. vm_compute. reflexivity.
Defined.
